(** * GridManager: construction of grids and ownership of the grid handle

    A shallow embedding of [opm/grid/GridManager.cpp].

    [GridManager.cpp] is glue code: it reads a geological grid (an
    [EclipseGrid] or a [Deck]), optionally runs the minimum-pore-volume
    processor, calls one of the C grid factories and keeps the returned
    [UnstructuredGrid*].  The collaborators it calls (the parser's
    containers, [MinpvProcessor], the [create_grid_*] factories,
    [attach_zcorn_copy], [destroy_grid], [read_grid]) are not part of the
    file; they enter the development as parameters, and every call to one
    of them is recorded in a trace together with the arguments the callee
    can observe and the value it returned. *)

From Stdlib Require Import ZArith String List PrimFloat.
From stdpp Require Import base option list gmap.

Local Open Scope string_scope.
Local Open Scope Z_scope.
Local Open Scope list_scope.

(** ** Values *)

(** A C [double]. *)
Abbreviation double := float.

(** A C pointer: [NULL] or an address. *)
Inductive pointer : Type :=
| NULL : pointer
| Ptr (a : positive) : pointer.

Definition is_null (p : pointer) : bool :=
  match p with NULL => true | Ptr _ => false end.

(** [struct grdecl] as this file uses it ([dims], [coord], [zcorn],
    [actnum], [mapaxes]); the arrays are pointers into storage owned by
    somebody else. *)
Record grdecl : Type := Build_grdecl {
  dims : Z * Z * Z;
  coord : pointer;
  zcorn : pointer;
  actnum : pointer;
  mapaxes : pointer
}.

(** What a callee that receives a [const struct grdecl*] reads through it:
    the dimensions and the contents of the four arrays at the time of the
    call ([None] for a null pointer or a pointer to no live storage). *)
Record grdecl_view : Type := Build_grdecl_view {
  v_dims : Z * Z * Z;
  v_coord : option (list double);
  v_zcorn : option (list double);
  v_actnum : option (list Z);
  v_mapaxes : option (list double)
}.

(** [MinpvMode::ModeEnum] of the parser library. *)
Inductive ModeEnum : Type := Inactive | EclSTD | OpmFIL.

Definition ModeEnum_neqb (a b : ModeEnum) : bool :=
  match a, b with
  | Inactive, Inactive | EclSTD, EclSTD | OpmFIL, OpmFIL => false
  | _, _ => true
  end.

(** ** Exceptions *)

(** The exception classes named at the [OPM_THROW] sites, and what
    escapes from a call into the parser library. *)
Inductive exn : Type :=
| runtime_error (what : string)
| library_exception (origin : string).

(** The two error kinds of the construction paths.  Both are
    [std::runtime_error]s raised by [OPM_THROW]; they differ by site. *)
Definition SchemaError : exn :=
  runtime_error "Deck must have either DIMENS or SPECGRID.".

Definition ConstructionError (what : string) : exn := runtime_error what.

Inductive Result (A : Type) : Type :=
| Ok (a : A)
| Throw (e : exn).
Arguments Ok {A} a.
Arguments Throw {A} e.

(** ** The world outside the file *)

(** Every call that leaves the file, with the arguments as the callee
    observes them (arrays by content at the time of the call) and the
    value returned. *)
Inductive Event : Type :=
| DeckHasKeyword (name : string) (ret : bool)
| DeckGetKeyword (name : string)
| Malloc (count : nat) (ret : positive)
| MinpvProcess (d : Z * Z * Z) (pv : list double) (minpv : double)
    (act : list Z) (opmfil : bool) (zc : list double) (ret : Z)
| CreateGridCornerpoint (g : grdecl_view) (z_tolerance : double)
    (ret : pointer)
| AttachZcornCopy (ug : pointer) (zc : option (list double))
| CreateGridCart2d (nx ny : Z) (dx dy : double) (ret : pointer)
| CreateGridCart3d (nx ny nz : Z) (ret : pointer)
| CreateGridHexa3d (nx ny nz : Z) (dx dy dz : double) (ret : pointer)
| ReadGrid (filename : string) (ret : pointer)
| DestroyGrid (ug : pointer).

(** Memory holding arrays of doubles and arrays of ints (a [double*] and
    an [int*] never alias), and the calls made so far, oldest first. *)
Record World : Type := Build_World {
  dmem : gmap positive (list double);
  imem : gmap positive (list Z);
  trace : list Event
}.

(** What the collaborators answer.  Nothing is assumed about them. *)
Record Externals : Type := Build_Externals {
  (** [MinpvProcessor(nx,ny,nz).process(pv, minpv, actnum, opmfil, zcorn)]:
      the count it returns and the contents it leaves in [actnum] and in
      the array behind [zcorn]. *)
  mp_process : Z * Z * Z -> list double -> double -> list Z -> bool ->
               list double -> Z * list Z * list double;
  create_grid_cornerpoint : grdecl_view -> double -> pointer;
  create_grid_cart2d : Z -> Z -> double -> double -> pointer;
  create_grid_cart3d : Z -> Z -> Z -> pointer;
  create_grid_hexa3d : Z -> Z -> Z -> double -> double -> double -> pointer;
  read_grid : string -> pointer;
  (** the indeterminate value of cell [i] of storage fresh from [malloc] *)
  indeterminate : nat -> double
}.

(** The structured geological source, [Opm::EclipseGrid], by what its
    accessors return. *)
Record EclipseGrid : Type := Build_EclipseGrid {
  getNX : Z;
  getNY : Z;
  getNZ : Z;
  exportMAPAXES : list double;
  exportCOORD : list double;
  exportZCORN : list double;
  exportACTNUM : list Z;
  getMinpvMode : ModeEnum;
  getMinpvValue : double;
  isPinchActive : bool;
  getPinchThresholdThickness : double
}.

(** The keyword source, [Opm::Deck], by its accessors.  [None] stands for
    an accessor that throws.  The two data accessors return a reference to
    a vector kept by the deck: its address in memory. *)
Class DeckAPI : Type := Build_DeckAPI {
  Deck : Type;
  DeckKeyword : Type;
  DeckRecord : Type;
  DeckItem : Type;
  hasKeyword : Deck -> string -> bool;
  getKeyword : Deck -> string -> option DeckKeyword;
  getSIDoubleData : DeckKeyword -> option positive;
  getIntData : DeckKeyword -> option positive;
  getRecord : DeckKeyword -> nat -> option DeckRecord;
  record_size : DeckRecord -> nat;
  getItem : DeckRecord -> nat -> option DeckItem;
  get_int : DeckItem -> nat -> option Z;
  getSIDouble : DeckItem -> nat -> option double
}.

(** ** A state and exception monad *)

(** A computation runs in a world and on one object it may assign to:
    [this] for a member function, the out-parameter for [createGrdecl]. *)
Record Frame (T : Type) : Type := Build_Frame {
  world : World;
  obj : T
}.
Arguments Build_Frame {T} world obj.
Arguments world {T} f.
Arguments obj {T} f.

Definition M (T A : Type) : Type := Frame T -> Result A * Frame T.

Definition ret {T A} (a : A) : M T A := fun f => (Ok a, f).

Definition bind {T A B} (m : M T A) (k : A -> M T B) : M T B :=
  fun f => match m f with
           | (Ok a, f') => k a f'
           | (Throw e, f') => (Throw e, f')
           end.

Definition throw {T A} (e : exn) : M T A := fun f => (Throw e, f).

Notation "'let!' x ':=' m 'in' k" := (bind m (fun x => k))
  (at level 10, x pattern, m at level 100, k at level 200).
Notation "m ';;' k" := (bind m (fun _ => k))
  (at level 100, k at level 200, right associativity).

(** [OPM_THROW(Exception, message)]. *)
Definition OPM_THROW {T A} (Exception : string -> exn) (message : string)
  : M T A := throw (Exception message).

Definition get_obj {T} : M T T := fun f => (Ok (obj f), f).

Definition get_world {T} : M T World := fun f => (Ok (world f), f).

(** A call leaves the file: it is appended to the trace. *)
Definition record_call (e : Event) (w : World) : World :=
  Build_World (dmem w) (imem w) (trace w ++ [e]).

Definition emit {T} (e : Event) : M T unit :=
  fun f => (Ok tt, Build_Frame (record_call e (world f)) (obj f)).

(** A library accessor that may throw. *)
Definition library {T A} (origin : string) (r : option A) : M T A :=
  match r with
  | Some a => ret a
  | None => throw (library_exception origin)
  end.

(** Run [m], then [cleanup] whether [m] returned or threw: the
    destructors of the locals of a block. *)
Definition finally {T A} (m : M T A) (cleanup : World -> World) : M T A :=
  fun f => let (r, f') := m f in
           (r, Build_Frame (cleanup (world f')) (obj f')).

(** [for (unsigned i = start; i < start + count; ++i) body(i)], for
    bounds below 2^32. *)
Fixpoint for_loop {T} (count : nat) (i : nat) (body : nat -> M T unit)
  : M T unit :=
  match count with
  | O => ret tt
  | S count' => body i ;; for_loop count' (S i) body
  end.

(** ** Memory *)

Definition set_dmem (w : World) (m : gmap positive (list double)) : World :=
  Build_World m (imem w) (trace w).

Definition set_imem (w : World) (m : gmap positive (list Z)) : World :=
  Build_World (dmem w) m (trace w).

(** The array a [double*] points to, if it points to one. *)
Definition deref_d (w : World) (p : pointer) : option (list double) :=
  match p with NULL => None | Ptr a => dmem w !! a end.

Definition deref_i (w : World) (p : pointer) : option (list Z) :=
  match p with NULL => None | Ptr a => imem w !! a end.

(** A local [std::vector], by the start of its storage, which is what
    [data()] returns: [NULL] for a vector that holds no storage.  The
    elements are in memory, behind that pointer. *)
Record vector : Type := Build_vector {
  data : pointer
}.

(** A default-constructed vector holds no storage. *)
Definition new_dvector {T} : M T vector := ret (Build_vector NULL).

Definition new_ivector {T} : M T vector := ret (Build_vector NULL).

(** Assignment of the whole contents of a vector (what the [export*]
    members of the source do to their argument); the vector as it is
    afterwards is returned.  A vector without storage that is given no
    element still has none; given elements, it gets storage at an
    address nothing else uses.  A vector that has storage keeps it. *)
Definition assign_dvector {T} (v : vector) (l : list double) : M T vector :=
  fun f => let w := world f in
           match data v, l with
           | Ptr a, _ =>
               (Ok v, Build_Frame (set_dmem w (<[a := l]> (dmem w))) (obj f))
           | NULL, [] => (Ok v, f)
           | NULL, _ :: _ =>
               let a := fresh (dom (dmem w)) in
               (Ok (Build_vector (Ptr a)),
                Build_Frame (set_dmem w (<[a := l]> (dmem w))) (obj f))
           end.

Definition assign_ivector {T} (v : vector) (l : list Z) : M T vector :=
  fun f => let w := world f in
           match data v, l with
           | Ptr a, _ =>
               (Ok v, Build_Frame (set_imem w (<[a := l]> (imem w))) (obj f))
           | NULL, [] => (Ok v, f)
           | NULL, _ :: _ =>
               let a := fresh (dom (imem w)) in
               (Ok (Build_vector (Ptr a)),
                Build_Frame (set_imem w (<[a := l]> (imem w))) (obj f))
           end.

(** The elements behind a pointer: none behind a null pointer. *)
Definition elements_d (w : World) (p : pointer) : list double :=
  default [] (deref_d w p).

Definition elements_i (w : World) (p : pointer) : list Z :=
  default [] (deref_i w p).

(** A callee overwrites, in place, the array a pointer points to; there
    is nothing to overwrite behind a null pointer. *)
Definition overwrite_d {T} (p : pointer) (l : list double) : M T unit :=
  fun f => let w := world f in
           match p with
           | NULL => (Ok tt, f)
           | Ptr a =>
               (Ok tt, Build_Frame (set_dmem w (<[a := l]> (dmem w))) (obj f))
           end.

Definition overwrite_i {T} (p : pointer) (l : list Z) : M T unit :=
  fun f => let w := world f in
           match p with
           | NULL => (Ok tt, f)
           | Ptr a =>
               (Ok tt, Build_Frame (set_imem w (<[a := l]> (imem w))) (obj f))
           end.

(** The destructor of a vector gives its storage back, if it has any. *)
Definition free_d (p : pointer) (m : gmap positive (list double))
  : gmap positive (list double) :=
  match p with NULL => m | Ptr a => delete a m end.

Definition free_i (p : pointer) (m : gmap positive (list Z))
  : gmap positive (list Z) :=
  match p with NULL => m | Ptr a => delete a m end.

(** [static_cast<double*>(malloc(sizeof(double) * count))].  The
    allocation is taken to succeed and to return storage disjoint from
    all live storage, also for [count = 0]. *)
Definition malloc {T} (ext : Externals) (count : nat) : M T positive :=
  fun f => let w := world f in
           let a := fresh (dom (dmem w)) in
           let cells := map (indeterminate ext) (seq 0 count) in
           (Ok a,
            Build_Frame
              (record_call (Malloc count a)
                 (set_dmem w (<[a := cells]> (dmem w))))
              (obj f)).

(** [p[i] = v] for [p] the start of a live array and [i] within it. *)
Definition store_d {T} (a : positive) (i : nat) (v : double) : M T unit :=
  fun f => let w := world f in
           (Ok tt,
            Build_Frame (set_dmem w (alter (fun l => <[i := v]> l) a (dmem w)))
              (obj f)).

(** ** Calls that leave the file *)

Section Calls.
Context {T : Type}.
Variable ext : Externals.

(** [MinpvProcessor mp(nx, ny, nz); mp.process(pv, minpv, actnum,
    opmfil, zcorn)] with [actnum] a vector passed by reference and
    [zcorn] the start of a vector's storage: the elements of both are
    updated in place. *)
Definition MinpvProcessor_process (d : Z * Z * Z) (pv : list double)
    (minpv : double) (actnum : vector) (opmfil : bool)
    (zcorn : pointer) : M T Z :=
  let! w := get_world in
  let act := elements_i w (data actnum) in
  let zc := elements_d w zcorn in
  let '(n, act', zc') := mp_process ext d pv minpv act opmfil zc in
  emit (MinpvProcess d pv minpv act opmfil zc n) ;;
  overwrite_i (data actnum) act' ;;
  overwrite_d zcorn zc' ;;
  ret n.

Definition view (w : World) (g : grdecl) : grdecl_view :=
  Build_grdecl_view (dims g) (deref_d w (coord g)) (deref_d w (zcorn g))
    (deref_i w (actnum g)) (deref_d w (mapaxes g)).

Definition call_create_grid_cornerpoint (g : grdecl) (z_tolerance : double)
  : M T pointer :=
  let! w := get_world in
  let ug := create_grid_cornerpoint ext (view w g) z_tolerance in
  emit (CreateGridCornerpoint (view w g) z_tolerance ug) ;;
  ret ug.

Definition call_attach_zcorn_copy (ug : pointer) (zc : pointer) : M T unit :=
  let! w := get_world in
  emit (AttachZcornCopy ug (deref_d w zc)).

Definition call_create_grid_cart2d (nx ny : Z) (dx dy : double)
  : M T pointer :=
  let ug := create_grid_cart2d ext nx ny dx dy in
  emit (CreateGridCart2d nx ny dx dy ug) ;; ret ug.

Definition call_create_grid_cart3d (nx ny nz : Z) : M T pointer :=
  let ug := create_grid_cart3d ext nx ny nz in
  emit (CreateGridCart3d nx ny nz ug) ;; ret ug.

Definition call_create_grid_hexa3d (nx ny nz : Z) (dx dy dz : double)
  : M T pointer :=
  let ug := create_grid_hexa3d ext nx ny nz dx dy dz in
  emit (CreateGridHexa3d nx ny nz dx dy dz ug) ;; ret ug.

Definition call_read_grid (filename : string) : M T pointer :=
  let ug := read_grid ext filename in
  emit (ReadGrid filename ug) ;; ret ug.

Definition call_destroy_grid (ug : pointer) : M T unit :=
  emit (DestroyGrid ug).

Context `{DeckAPI}.

Definition deck_hasKeyword (deck : Deck) (name : string) : M T bool :=
  let b := hasKeyword deck name in
  emit (DeckHasKeyword name b) ;; ret b.

Definition deck_getKeyword (deck : Deck) (name : string) : M T DeckKeyword :=
  emit (DeckGetKeyword name) ;;
  library "Deck::getKeyword" (getKeyword deck name).

End Calls.

(** ** GridManager *)

(** [std::vector::empty()]. *)
Definition vector_empty {A} (v : list A) : bool :=
  match v with [] => true | _ :: _ => false end.

(** The one data member, [UnstructuredGrid* ug_]. *)
Record GridManager : Type := Build_GridManager {
  ug_ : pointer
}.

Definition set_dims (g : grdecl) (d : Z * Z * Z) : grdecl :=
  Build_grdecl d (coord g) (zcorn g) (actnum g) (mapaxes g).
Definition set_coord (g : grdecl) (p : pointer) : grdecl :=
  Build_grdecl (dims g) p (zcorn g) (actnum g) (mapaxes g).
Definition set_zcorn (g : grdecl) (p : pointer) : grdecl :=
  Build_grdecl (dims g) (coord g) p (actnum g) (mapaxes g).
Definition set_actnum (g : grdecl) (p : pointer) : grdecl :=
  Build_grdecl (dims g) (coord g) (zcorn g) p (mapaxes g).
Definition set_mapaxes (g : grdecl) (p : pointer) : grdecl :=
  Build_grdecl (dims g) (coord g) (zcorn g) (actnum g) p.

Definition modify_obj {T} (upd : T -> T) : M T unit :=
  fun f => (Ok tt, Build_Frame (world f) (upd (obj f))).

(** The destructors of the four local vectors of [initFromEclipseGrid]. *)
Definition destroy_locals (actnum coord zcorn mapaxes : vector) (w : World)
  : World :=
  Build_World
    (free_d (data coord) (free_d (data zcorn) (free_d (data mapaxes) (dmem w))))
    (free_i (data actnum) (imem w)) (trace w).

Section GridManager.
Variable ext : Externals.

(** [GridManager::initFromEclipseGrid(inputGrid, poreVolumes)].  An
    [export*] call fills the vector it is given: the name of the vector
    stands for the filled vector from there on.  The destructors of the
    four vectors run at the end, whether the body returns or throws. *)
Definition initFromEclipseGrid (inputGrid : EclipseGrid)
    (poreVolumes : list double) : M GridManager unit :=
  let cells_modified := 0 in
  let! actnum := new_ivector in
  let! coord := new_dvector in
  let! zcorn := new_dvector in
  let! mapaxes := new_dvector in
  let g_dims := (getNX inputGrid, getNY inputGrid, getNZ inputGrid) in
  let! mapaxes := assign_dvector mapaxes (exportMAPAXES inputGrid) in
  let! coord := assign_dvector coord (exportCOORD inputGrid) in
  let! zcorn := assign_dvector zcorn (exportZCORN inputGrid) in
  let! actnum := assign_ivector actnum (exportACTNUM inputGrid) in
  finally
    (let g := Build_grdecl g_dims (data coord) (data zcorn) (data actnum)
                (data mapaxes) in
     let! cells_modified :=
       (if negb (vector_empty poreVolumes)
           && ModeEnum_neqb (getMinpvMode inputGrid) Inactive
        then
          let minpv_value := getMinpvValue inputGrid in
          let opmfil := true in
          MinpvProcessor_process ext (dims g) poreVolumes minpv_value actnum
            opmfil (data zcorn)
        else ret cells_modified) in
     let z_tolerance :=
       if isPinchActive inputGrid
       then getPinchThresholdThickness inputGrid
       else 0%float in
     let! ug := call_create_grid_cornerpoint ext g z_tolerance in
     modify_obj (fun _ => Build_GridManager ug) ;;
     let! this := get_obj in
     (if is_null (ug_ this)
      then OPM_THROW runtime_error "Failed to construct grid."
      else ret tt) ;;
     if 0 <? cells_modified
     then let! this := get_obj in
          call_attach_zcorn_copy (ug_ this) (data zcorn)
     else ret tt)
    (destroy_locals actnum coord zcorn mapaxes).

(** A constructor: its body runs on the members as the initialiser list
    left them; if the body throws there is no object. *)
Definition construct (init : GridManager) (body : M GridManager unit)
    (w : World) : Result GridManager * World :=
  match body (Build_Frame w init) with
  | (Ok _, f) => (Ok (obj f), world f)
  | (Throw e, f) => (Throw e, world f)
  end.

(** [GridManager(const Opm::EclipseGrid&)]. *)
Definition GridManager_EclipseGrid (inputGrid : EclipseGrid) :=
  construct (Build_GridManager NULL) (initFromEclipseGrid inputGrid []).

(** [GridManager(const Opm::EclipseGrid&, const std::vector<double>&)]. *)
Definition GridManager_EclipseGrid_poreVolumes (inputGrid : EclipseGrid)
    (poreVolumes : list double) :=
  construct (Build_GridManager NULL)
    (initFromEclipseGrid inputGrid poreVolumes).

(** The shared tail of the cartesian and file constructors:
    [if (!ug_) OPM_THROW(std::runtime_error, message)]. *)
Definition check_ug (message : string) : M GridManager unit :=
  let! this := get_obj in
  if is_null (ug_ this) then OPM_THROW runtime_error message else ret tt.

(** The constructors below have no initialiser for [ug_]; its first
    value is never read. *)
Variable ug_uninitialised : pointer.

(** [GridManager(int nx, int ny)]. *)
Definition GridManager_2d (nx ny : Z) :=
  construct (Build_GridManager ug_uninitialised)
    (let! ug := call_create_grid_cart2d ext nx ny 1%float 1%float in
     modify_obj (fun _ => Build_GridManager ug) ;;
     check_ug "Failed to construct grid.").

(** [GridManager(int nx, int ny, double dx, double dy)]. *)
Definition GridManager_2d_sized (nx ny : Z) (dx dy : double) :=
  construct (Build_GridManager ug_uninitialised)
    (let! ug := call_create_grid_cart2d ext nx ny dx dy in
     modify_obj (fun _ => Build_GridManager ug) ;;
     check_ug "Failed to construct grid.").

(** [GridManager(int nx, int ny, int nz)]. *)
Definition GridManager_3d (nx ny nz : Z) :=
  construct (Build_GridManager ug_uninitialised)
    (let! ug := call_create_grid_cart3d ext nx ny nz in
     modify_obj (fun _ => Build_GridManager ug) ;;
     check_ug "Failed to construct grid.").

(** [GridManager(int nx, int ny, int nz, double dx, double dy, double dz)]. *)
Definition GridManager_3d_sized (nx ny nz : Z) (dx dy dz : double) :=
  construct (Build_GridManager ug_uninitialised)
    (let! ug := call_create_grid_hexa3d ext nx ny nz dx dy dz in
     modify_obj (fun _ => Build_GridManager ug) ;;
     check_ug "Failed to construct grid.").

(** [GridManager(const std::string& input_filename)]. *)
Definition GridManager_file (input_filename : string) :=
  construct (Build_GridManager ug_uninitialised)
    (let! ug := call_read_grid ext input_filename in
     modify_obj (fun _ => Build_GridManager ug) ;;
     check_ug ("Failed to read grid from file " ++ input_filename)%string).

(** [~GridManager()]. *)
Definition GridManager_destructor : M GridManager unit :=
  let! this := get_obj in
  call_destroy_grid (ug_ this).

(** [const UnstructuredGrid* c_grid() const]. *)
Definition c_grid : M GridManager pointer :=
  let! this := get_obj in
  ret (ug_ this).

Context `{DeckAPI}.

(** [GridManager::createGrdecl(deck, grdecl)]; the frame's object is the
    out-parameter [grdecl]. *)
Definition createGrdecl (deck : Deck) : M grdecl unit :=
  let! zcorn_kw := deck_getKeyword deck "ZCORN" in
  let! zcorn := library "DeckKeyword::getSIDoubleData"
                  (getSIDoubleData zcorn_kw) in
  let! coord_kw := deck_getKeyword deck "COORD" in
  let! coord := library "DeckKeyword::getSIDoubleData"
                  (getSIDoubleData coord_kw) in
  let! has_actnum := deck_hasKeyword deck "ACTNUM" in
  let! actnum :=
    (if has_actnum
     then let! actnum_kw := deck_getKeyword deck "ACTNUM" in
          let! data := library "DeckKeyword::getIntData"
                         (getIntData actnum_kw) in
          ret (Ptr data)
     else ret NULL) in
  let! has_dimens := deck_hasKeyword deck "DIMENS" in
  let! dims :=
    (if has_dimens
     then
       let! dimensKeyword := deck_getKeyword deck "DIMENS" in
       let! r0 := library "DeckKeyword::getRecord"
                    (getRecord dimensKeyword 0) in
       let! i0 := library "DeckRecord::getItem" (getItem r0 0) in
       let! d0 := library "DeckItem::get" (get_int i0 0) in
       let! r1 := library "DeckKeyword::getRecord"
                    (getRecord dimensKeyword 0) in
       let! i1 := library "DeckRecord::getItem" (getItem r1 1) in
       let! d1 := library "DeckItem::get" (get_int i1 0) in
       let! r2 := library "DeckKeyword::getRecord"
                    (getRecord dimensKeyword 0) in
       let! i2 := library "DeckRecord::getItem" (getItem r2 2) in
       let! d2 := library "DeckItem::get" (get_int i2 0) in
       ret (d0, d1, d2)
     else
       let! has_specgrid := deck_hasKeyword deck "SPECGRID" in
       if has_specgrid
       then
         let! specgridKeyword := deck_getKeyword deck "SPECGRID" in
         let! r0 := library "DeckKeyword::getRecord"
                      (getRecord specgridKeyword 0) in
         let! i0 := library "DeckRecord::getItem" (getItem r0 0) in
         let! d0 := library "DeckItem::get" (get_int i0 0) in
         let! r1 := library "DeckKeyword::getRecord"
                      (getRecord specgridKeyword 0) in
         let! i1 := library "DeckRecord::getItem" (getItem r1 1) in
         let! d1 := library "DeckItem::get" (get_int i1 0) in
         let! r2 := library "DeckKeyword::getRecord"
                      (getRecord specgridKeyword 0) in
         let! i2 := library "DeckRecord::getItem" (getItem r2 2) in
         let! d2 := library "DeckItem::get" (get_int i2 0) in
         ret (d0, d1, d2)
       else
         OPM_THROW runtime_error
           "Deck must have either DIMENS or SPECGRID.") in
  modify_obj (fun g => set_zcorn g (Ptr zcorn)) ;;
  modify_obj (fun g => set_coord g (Ptr coord)) ;;
  modify_obj (fun g => set_actnum g actnum) ;;
  modify_obj (fun g => set_dims g dims) ;;
  let! has_mapaxes := deck_hasKeyword deck "MAPAXES" in
  if has_mapaxes
  then
    let! mapaxesKeyword := deck_getKeyword deck "MAPAXES" in
    let! mapaxesRecord := library "DeckKeyword::getRecord"
                            (getRecord mapaxesKeyword 0) in
    let! cWtfMapaxes := malloc ext (record_size mapaxesRecord) in
    for_loop (record_size mapaxesRecord) 0
      (fun i =>
         let! item := library "DeckRecord::getItem"
                        (getItem mapaxesRecord i) in
         let! v := library "DeckItem::getSIDouble" (getSIDouble item 0) in
         store_d cWtfMapaxes i v) ;;
    modify_obj (fun g => set_mapaxes g (Ptr cWtfMapaxes))
  else
    modify_obj (fun g => set_mapaxes g NULL).

End GridManager.

(** ** A concrete keyword source *)

(** A deck as a list of keywords, each a list of records of items; data
    keywords also name the vector holding their values.  The accessors
    throw where the parser library's do: on a missing keyword, record,
    item or value. *)
Module ListDeck.

Record item : Type := Build_item {
  ints : list Z;
  si_doubles : list double
}.

Record keyword : Type := Build_keyword {
  name : string;
  records : list (list item);
  si_data : option positive;
  int_data : option positive
}.

Definition named (n : string) (k : keyword) : bool := String.eqb (name k) n.

#[global] Instance api : DeckAPI := {|
  Deck := list keyword;
  DeckKeyword := keyword;
  DeckRecord := list item;
  DeckItem := item;
  hasKeyword d n := existsb (named n) d;
  getKeyword d n := List.find (named n) (rev d);
  getSIDoubleData k := si_data k;
  getIntData k := int_data k;
  getRecord k i := nth_error (records k) i;
  record_size r := length r;
  getItem r i := nth_error r i;
  get_int it i := nth_error (ints it) i;
  getSIDouble it i := nth_error (si_doubles it) i
|}.

Definition int_item (z : Z) : item := Build_item [z] [].
Definition double_item (x : double) : item := Build_item [] [x].

End ListDeck.

Definition empty_world : World := Build_World ∅ ∅ [].

(** The events of a run that started in [w] and ended in [w']. *)
Definition new_events (w w' : World) : list Event :=
  drop (length (trace w)) (trace w').

(** ** What a run of [initFromEclipseGrid] amounts to *)

(** The values the body of [initFromEclipseGrid] computes on its way,
    written as functions of its inputs and of the collaborators' answers.
    [initFromEclipseGrid_run] below proves that the embedding of the code
    produces exactly these. *)
(** What a callee reads behind [v.data()] when the vector [v] was
    exported as [exported] and its elements are [now] at the time of the
    call: nothing when the export was empty, since the vector then holds
    no storage and [data()] is null. *)
Definition behind {A} (exported now : list A) : option (list A) :=
  if vector_empty exported then None else Some now.

Section Pipeline.
Variable ext : Externals.
Variable inputGrid : EclipseGrid.
Variable poreVolumes : list double.

Definition extracted_dims : Z * Z * Z :=
  (getNX inputGrid, getNY inputGrid, getNZ inputGrid).

Definition filtering_requested : bool :=
  negb (vector_empty poreVolumes)
  && ModeEnum_neqb (getMinpvMode inputGrid) Inactive.

Definition filtering_answer : Z * list Z * list double :=
  mp_process ext extracted_dims poreVolumes (getMinpvValue inputGrid)
    (exportACTNUM inputGrid) true (exportZCORN inputGrid).

Definition filtering_call : Event :=
  MinpvProcess extracted_dims poreVolumes (getMinpvValue inputGrid)
    (exportACTNUM inputGrid) true (exportZCORN inputGrid)
    (filtering_answer.1.1).

Definition reported_cells : Z :=
  if filtering_requested then filtering_answer.1.1 else 0.

Definition assembly_actnum : list Z :=
  if filtering_requested then filtering_answer.1.2
  else exportACTNUM inputGrid.

Definition assembly_zcorn : list double :=
  if filtering_requested then filtering_answer.2
  else exportZCORN inputGrid.

Definition assembly_input : grdecl_view :=
  Build_grdecl_view extracted_dims
    (behind (exportCOORD inputGrid) (exportCOORD inputGrid))
    (behind (exportZCORN inputGrid) assembly_zcorn)
    (behind (exportACTNUM inputGrid) assembly_actnum)
    (behind (exportMAPAXES inputGrid) (exportMAPAXES inputGrid)).

Definition tolerance : double :=
  if isPinchActive inputGrid
  then getPinchThresholdThickness inputGrid
  else 0%float.

Definition assembled : pointer :=
  create_grid_cornerpoint ext assembly_input tolerance.

Definition assembly_call : Event :=
  CreateGridCornerpoint assembly_input tolerance assembled.

Definition attach_call : Event :=
  AttachZcornCopy assembled (behind (exportZCORN inputGrid) assembly_zcorn).

Definition pipeline_events : list Event :=
  (if filtering_requested then [filtering_call] else [])
  ++ [assembly_call]
  ++ (if is_null assembled then []
      else if 0 <? reported_cells then [attach_call] else []).

Definition pipeline_result : Result unit :=
  if is_null assembled
  then Throw (runtime_error "Failed to construct grid.")
  else Ok tt.
End Pipeline.

(** The handle a factory call returned, for the events that are one. *)
Definition factory_returned (e : Event) : option pointer :=
  match e with
  | CreateGridCornerpoint _ _ ret
  | CreateGridCart2d _ _ _ _ ret
  | CreateGridCart3d _ _ _ ret
  | CreateGridHexa3d _ _ _ _ _ _ ret
  | ReadGrid _ ret => Some ret
  | _ => None
  end.

(** ** What [createGrdecl] reads *)

Section DeckReading.
Context `{DeckAPI}.

(** The arrays a deck must provide: the vectors of [ZCORN] and of
    [COORD], and the vector of [ACTNUM] when the deck has one. *)
Definition deck_arrays (deck : Deck)
  : option (positive * positive * pointer) :=
  zcorn_kw ← getKeyword deck "ZCORN";
  zcorn ← getSIDoubleData zcorn_kw;
  coord_kw ← getKeyword deck "COORD";
  coord ← getSIDoubleData coord_kw;
  actnum ← (if hasKeyword deck "ACTNUM"
            then actnum_kw ← getKeyword deck "ACTNUM";
                 data ← getIntData actnum_kw;
                 Some (Ptr data)
            else Some NULL);
  Some (zcorn, coord, actnum).

(** The first value of each of the first three items of the first
    record of a keyword. *)
Definition first_record_ints (deck : Deck) (name : string)
  : option (Z * Z * Z) :=
  kw ← getKeyword deck name;
  r ← getRecord kw 0;
  i0 ← getItem r 0; d0 ← get_int i0 0;
  i1 ← getItem r 1; d1 ← get_int i1 0;
  i2 ← getItem r 2; d2 ← get_int i2 0;
  Some (d0, d1, d2).

(** The dimensions a deck states. *)
Definition stated_dims (deck : Deck) : option (Z * Z * Z) :=
  if hasKeyword deck "DIMENS" then first_record_ints deck "DIMENS"
  else if hasKeyword deck "SPECGRID" then first_record_ints deck "SPECGRID"
  else None.

(** The SI value of item [i] of a record, and of all its items. *)
Definition item_si_double (r : DeckRecord) (i : nat) : option double :=
  item ← getItem r i; getSIDouble item 0.

Definition record_si_doubles (r : DeckRecord) : option (list double) :=
  mapM (item_si_double r) (seq 0 (record_size r)).

(** The calls [createGrdecl] makes to read the arrays. *)
Definition array_events (deck : Deck) : list Event :=
  [DeckGetKeyword "ZCORN"; DeckGetKeyword "COORD";
   DeckHasKeyword "ACTNUM" (hasKeyword deck "ACTNUM")]
  ++ (if hasKeyword deck "ACTNUM" then [DeckGetKeyword "ACTNUM"] else []).

(** Whether a call asks the deck about the keyword [name]. *)
Definition consults (name : string) (e : Event) : bool :=
  match e with
  | DeckHasKeyword n _ | DeckGetKeyword n => String.eqb n name
  | _ => false
  end.

(** The body of the loop of [createGrdecl] and its last statement, the
    [MAPAXES] block, under names of their own; [createGrdecl] contains
    both as they stand here. *)
Definition fill (mapaxesRecord : DeckRecord) (cWtfMapaxes : positive)
    (i : nat) : M grdecl unit :=
  let! item := library "DeckRecord::getItem" (getItem mapaxesRecord i) in
  let! v := library "DeckItem::getSIDouble" (getSIDouble item 0) in
  store_d cWtfMapaxes i v.

Definition mapaxes_block (ext : Externals) (deck : Deck) : M grdecl unit :=
  let! has_mapaxes := deck_hasKeyword deck "MAPAXES" in
  if has_mapaxes
  then
    let! mapaxesKeyword := deck_getKeyword deck "MAPAXES" in
    let! mapaxesRecord := library "DeckKeyword::getRecord"
                            (getRecord mapaxesKeyword 0) in
    let! cWtfMapaxes := malloc ext (record_size mapaxesRecord) in
    for_loop (record_size mapaxesRecord) 0
      (fill mapaxesRecord cWtfMapaxes) ;;
    modify_obj (fun g => set_mapaxes g (Ptr cWtfMapaxes))
  else
    modify_obj (fun g => set_mapaxes g NULL).
End DeckReading.

(** The description [createGrdecl] has filled in when it reaches the
    [MAPAXES] block. *)
Definition before_mapaxes (g : grdecl) (z c : positive) (a : pointer)
    (d : Z * Z * Z) : grdecl :=
  set_dims (set_actnum (set_coord (set_zcorn g (Ptr z)) (Ptr c)) a) d.

(** ** Properties of constructors *)

(** A constructor, as a run: it calls a factory once, and the factory's
    answer decides between the exception and the manager. *)
Definition runs_factory (message : string)
    (ctor : World -> Result GridManager * World) : Prop :=
  forall w, exists evs ug,
    omap factory_returned evs = [ug]
    /\ ctor w = (if is_null ug then Throw (runtime_error message)
                 else Ok (Build_GridManager ug),
                 Build_World (dmem w) (imem w) (trace w ++ evs)).

(** A constructor fails or leaves a valid handle: it calls a factory
    once; a null answer makes it throw [message], and the manager it
    constructs otherwise holds the factory's answer, which is not null. *)
Definition fails_or_valid (message : string)
    (ctor : World -> Result GridManager * World) : Prop :=
  forall w : World,
    let out := ctor w in
    let evs := new_events w out.2 in
    (exists ug, omap factory_returned evs = [ug])
    /\ (forall e, e ∈ evs -> factory_returned e = Some NULL ->
          out.1 = Throw (ConstructionError message))
    /\ (forall m, out.1 = Ok m ->
          ug_ m <> NULL
          /\ exists e, e ∈ evs /\ factory_returned e = Some (ug_ m)).

(** On every manager a constructor yields, [c_grid] returns the handle
    the manager holds, which is not null, and leaves the manager and the
    world as they were: no call is made, and the destructor run
    afterwards still releases that handle. *)
Definition accessor_borrows (ctor : World -> Result GridManager * World)
  : Prop :=
  forall (w w' : World) (m : GridManager),
    ctor w = (Ok m, w') ->
    let got := c_grid (Build_Frame w' m) in
    got.1 = Ok (ug_ m)
    /\ ug_ m <> NULL
    /\ got.2 = Build_Frame w' m
    /\ new_events w' (world (GridManager_destructor got.2).2)
       = [DestroyGrid (ug_ m)].

(** ** Inputs for the examples *)

Module Examples.
Import ListDeck.

(** Collaborators: a processor that deactivates every cell, shifts the
    elevations by one and reports one modified cell; factories that
    succeed, except the reader of files. *)
Definition ext : Externals := {|
  mp_process _ _ _ act _ zc :=
    (1, map (fun _ => 0) act, map (fun x => (x + 1)%float) zc);
  create_grid_cornerpoint _ _ := Ptr 7;
  create_grid_cart2d _ _ _ _ := Ptr 1;
  create_grid_cart3d _ _ _ := Ptr 2;
  create_grid_hexa3d _ _ _ _ _ _ := Ptr 3;
  read_grid _ := NULL;
  indeterminate _ := nan
|}.

(** One cell, no areal transform, pinch inactive with a threshold set. *)
Definition grid : EclipseGrid := {|
  getNX := 1; getNY := 1; getNZ := 1;
  exportMAPAXES := [];
  exportCOORD := [0; 0; 0; 0; 0; 1; 1; 0; 0; 1; 0; 1;
                  0; 1; 0; 0; 1; 1; 1; 1; 0; 1; 1; 1]%float;
  exportZCORN := [0; 0; 0; 0; 1; 1; 1; 1]%float;
  exportACTNUM := [1];
  getMinpvMode := EclSTD;
  getMinpvValue := 0.5%float;
  isPinchActive := false;
  getPinchThresholdThickness := 3%float
|}.

Definition poreVolumes : list double := [0.25%float].

(** Memory holding the vectors of a deck: [ZCORN] at 5 and [COORD] at 6
    among the doubles, [ACTNUM] at 2 among the ints. *)
Definition deck_world : World := {|
  dmem := <[5%positive := exportZCORN grid]>
            (<[6%positive := exportCOORD grid]> ∅);
  imem := <[2%positive := [1]]> ∅;
  trace := []
|}.

Definition arrays : list keyword :=
  [ Build_keyword "ZCORN" [] (Some 5%positive) None;
    Build_keyword "COORD" [] (Some 6%positive) None;
    Build_keyword "ACTNUM" [] None (Some 2%positive) ].

Definition DIMENS : keyword :=
  Build_keyword "DIMENS" [[int_item 1; int_item 1; int_item 1]] None None.

Definition SPECGRID : keyword :=
  Build_keyword "SPECGRID" [[int_item 2; int_item 1; int_item 1]] None None.

Definition MAPAXES : keyword :=
  Build_keyword "MAPAXES"
    [map double_item [0; 1; 0; 0; 1; 0]%float] None None.

(** A deck with both dimension keywords and a transform, one with
    neither, and one with [SPECGRID] only. *)
Definition deck_both : list keyword := arrays ++ [DIMENS; SPECGRID; MAPAXES].
Definition deck_no_dims : list keyword := arrays.
Definition deck_specgrid : list keyword := arrays ++ [SPECGRID].

Definition blank : grdecl := Build_grdecl (0, 0, 0) NULL NULL NULL NULL.
End Examples.

(** ** Lifetimes and failures *)

(** The handles the [destroy_grid] calls of a trace release, the counts
    the filtering calls report, and the buffers the [malloc] calls
    return. *)
Definition released (evs : list Event) : list pointer :=
  omap (fun e => match e with DestroyGrid ug => Some ug | _ => None end) evs.

Definition minpv_reports (evs : list Event) : list Z :=
  omap (fun e => match e with
                 | MinpvProcess _ _ _ _ _ _ n => Some n
                 | _ => None
                 end) evs.

Definition allocated (evs : list Event) : list positive :=
  omap (fun e => match e with Malloc _ a => Some a | _ => None end) evs.

(** The life of a manager with automatic storage: the constructor runs,
    and the destructor runs if and only if the constructor returned. *)
Definition lifetime (ctor : World -> Result GridManager * World) (w : World)
  : Result unit * World :=
  match ctor w with
  | (Ok m, w') =>
      let out := GridManager_destructor (Build_Frame w' m) in
      (out.1, world out.2)
  | (Throw e, w') => (Throw e, w')
  end.

(** Over a whole life: a manager that was constructed has its handle, the
    one its factory returned, released once, by the last call; a
    constructor that threw got a null handle and nothing is released. *)
Definition releases_once (ctor : World -> Result GridManager * World)
  : Prop :=
  forall w : World,
    let out := lifetime ctor w in
    let evs := new_events w out.2 in
    match out.1 with
    | Ok _ =>
        exists ug before,
          evs = before ++ [DestroyGrid ug]
          /\ omap factory_returned before = [ug]
          /\ released before = []
          /\ ug <> NULL
    | Throw _ =>
        omap factory_returned evs = [NULL] /\ released evs = []
    end.

(** The five ways the [MAPAXES] block of [createGrdecl] can go from the
    world [w] and the description [o]: the keyword is absent; the deck
    does not hand the keyword out; the keyword has no first record; every
    item is read and copied; or some item cannot be read, after the
    buffer has been allocated. *)
Inductive mapaxes_outcome `{DeckAPI} (deck : Deck) (w : World) (o : grdecl)
  : Result unit -> Frame grdecl -> Prop :=
| mapaxes_absent :
    hasKeyword deck "MAPAXES" = false ->
    mapaxes_outcome deck w o (Ok tt)
      (Build_Frame (record_call (DeckHasKeyword "MAPAXES" false) w)
         (set_mapaxes o NULL))
| mapaxes_no_keyword :
    hasKeyword deck "MAPAXES" = true ->
    getKeyword deck "MAPAXES" = None ->
    mapaxes_outcome deck w o (Throw (library_exception "Deck::getKeyword"))
      (Build_Frame
         (Build_World (dmem w) (imem w)
            (trace w ++ [DeckHasKeyword "MAPAXES" true;
                         DeckGetKeyword "MAPAXES"]))
         o)
| mapaxes_no_record kw :
    hasKeyword deck "MAPAXES" = true ->
    getKeyword deck "MAPAXES" = Some kw ->
    getRecord kw 0 = None ->
    mapaxes_outcome deck w o
      (Throw (library_exception "DeckKeyword::getRecord"))
      (Build_Frame
         (Build_World (dmem w) (imem w)
            (trace w ++ [DeckHasKeyword "MAPAXES" true;
                         DeckGetKeyword "MAPAXES"]))
         o)
| mapaxes_copied kw r vals :
    hasKeyword deck "MAPAXES" = true ->
    getKeyword deck "MAPAXES" = Some kw ->
    getRecord kw 0 = Some r ->
    record_si_doubles r = Some vals ->
    mapaxes_outcome deck w o (Ok tt)
      (Build_Frame
         (Build_World (<[fresh (dom (dmem w)) := vals]> (dmem w)) (imem w)
            (trace w ++ [DeckHasKeyword "MAPAXES" true;
                         DeckGetKeyword "MAPAXES";
                         Malloc (record_size r) (fresh (dom (dmem w)))]))
         (set_mapaxes o (Ptr (fresh (dom (dmem w))))))
| mapaxes_item_unreadable kw r s f' :
    hasKeyword deck "MAPAXES" = true ->
    getKeyword deck "MAPAXES" = Some kw ->
    getRecord kw 0 = Some r ->
    record_si_doubles r = None ->
    obj f' = o ->
    imem (world f') = imem w ->
    trace (world f')
    = trace w ++ [DeckHasKeyword "MAPAXES" true; DeckGetKeyword "MAPAXES";
                  Malloc (record_size r) (fresh (dom (dmem w)))] ->
    (forall b, b <> fresh (dom (dmem w)) ->
               dmem (world f') !! b = dmem w !! b) ->
    is_Some (dmem (world f') !! fresh (dom (dmem w))) ->
    mapaxes_outcome deck w o (Throw (library_exception s)) f'.

(** ** More inputs for the examples *)

Module Failures.
Import ListDeck.

(** Collaborators as in [Examples.ext], but the assembler fails. *)
Definition ext : Externals := {|
  mp_process := mp_process Examples.ext;
  create_grid_cornerpoint _ _ := NULL;
  create_grid_cart2d := create_grid_cart2d Examples.ext;
  create_grid_cart3d := create_grid_cart3d Examples.ext;
  create_grid_hexa3d := create_grid_hexa3d Examples.ext;
  read_grid := read_grid Examples.ext;
  indeterminate := indeterminate Examples.ext
|}.

(** [MAPAXES] whose third item has no value, and [MAPAXES] without a
    record. *)
Definition MAPAXES_hole : keyword :=
  Build_keyword "MAPAXES"
    [[double_item 0; double_item 1; Build_item [] []; double_item 0]%float]
    None None.

Definition MAPAXES_empty : keyword := Build_keyword "MAPAXES" [] None None.

Definition deck_hole : list keyword :=
  Examples.arrays ++ [Examples.DIMENS; MAPAXES_hole].

Definition deck_no_record : list keyword :=
  Examples.arrays ++ [Examples.DIMENS; MAPAXES_empty].

(** A deck without [ACTNUM] and without [MAPAXES]. *)
Definition deck_plain : list keyword :=
  [ Build_keyword "ZCORN" [] (Some 5%positive) None;
    Build_keyword "COORD" [] (Some 6%positive) None;
    Examples.SPECGRID ].

(** A grid as [Examples.grid] that exports no activity flags. *)
Definition grid_bare : EclipseGrid := {|
  getNX := 1; getNY := 1; getNZ := 1;
  exportMAPAXES := [];
  exportCOORD := exportCOORD Examples.grid;
  exportZCORN := exportZCORN Examples.grid;
  exportACTNUM := [];
  getMinpvMode := EclSTD;
  getMinpvValue := 0.5%float;
  isPinchActive := true;
  getPinchThresholdThickness := 3%float
|}.

(** A description with every field set beforehand. *)
Definition stale : grdecl :=
  Build_grdecl (9, 9, 9) (Ptr 11) (Ptr 12) (Ptr 13) (Ptr 14).
End Failures.

(** * Properties *)

(** ** The embedding at work *)

(** One cell, no areal transform, pore volume given, mode [EclSTD],
    pinch inactive with a threshold of 3: the processor is called with
    the flag set, the assembler gets what the processor left, a null
    transform and a tolerance of 0, and the elevations are attached to
    the handle. *)
Example initFromEclipseGrid_example :
  let out := initFromEclipseGrid Examples.ext Examples.grid
               Examples.poreVolumes
               (Build_Frame empty_world (Build_GridManager NULL)) in
  out.1 = Ok tt
  /\ obj out.2 = Build_GridManager (Ptr 7)
  /\ trace (world out.2)
     = [ MinpvProcess (1, 1, 1) [0.25%float] 0.5%float [1] true
           [0; 0; 0; 0; 1; 1; 1; 1]%float 1;
         CreateGridCornerpoint
           (Build_grdecl_view (1, 1, 1) (Some (exportCOORD Examples.grid))
              (Some [1; 1; 1; 1; 2; 2; 2; 2]%float) (Some [0]) None)
           0%float (Ptr 7);
         AttachZcornCopy (Ptr 7) (Some [1; 1; 1; 1; 2; 2; 2; 2]%float) ].
Proof. vm_compute. repeat split. Qed.

(** Without pore volumes the assembler's call is the only one. *)
Example GridManager_EclipseGrid_example :
  GridManager_EclipseGrid Examples.ext Examples.grid empty_world
  = (Ok (Build_GridManager (Ptr 7)),
     Build_World ∅ ∅
       [ CreateGridCornerpoint
           (Build_grdecl_view (1, 1, 1) (Some (exportCOORD Examples.grid))
              (Some (exportZCORN Examples.grid)) (Some [1]) None)
           0%float (Ptr 7) ]).
Proof. vm_compute. reflexivity. Qed.

(** A grid that exports neither activity flags nor an areal transform:
    the assembler gets two null pointers; the processor, which gets the
    empty vector of flags, runs all the same. *)
Example GridManager_EclipseGrid_poreVolumes_example :
  GridManager_EclipseGrid_poreVolumes Examples.ext Failures.grid_bare
    Examples.poreVolumes empty_world
  = (Ok (Build_GridManager (Ptr 7)),
     Build_World ∅ ∅
       [ MinpvProcess (1, 1, 1) [0.25%float] 0.5%float [] true
           [0; 0; 0; 0; 1; 1; 1; 1]%float 1;
         CreateGridCornerpoint
           (Build_grdecl_view (1, 1, 1) (Some (exportCOORD Examples.grid))
              (Some [1; 1; 1; 1; 2; 2; 2; 2]%float) None None)
           3%float (Ptr 7);
         AttachZcornCopy (Ptr 7) (Some [1; 1; 1; 1; 2; 2; 2; 2]%float) ]).
Proof. vm_compute. reflexivity. Qed.

(** The reader of files fails: no manager, and the message names the
    file. *)
Example GridManager_file_example :
  GridManager_file Examples.ext NULL "grid.txt" empty_world
  = (Throw (runtime_error "Failed to read grid from file grid.txt"),
     Build_World ∅ ∅ [ReadGrid "grid.txt" NULL]).
Proof. vm_compute. reflexivity. Qed.

(** A deck with [DIMENS], [SPECGRID] and [MAPAXES]: the calls made, and
    the description filled in. *)
Example createGrdecl_example :
  let out := createGrdecl Examples.ext Examples.deck_both
               (Build_Frame Examples.deck_world Examples.blank) in
  out.1 = Ok tt
  /\ obj out.2 = Build_grdecl (1, 1, 1) (Ptr 6) (Ptr 5) (Ptr 2) (Ptr 7)
  /\ trace (world out.2)
     = [ DeckGetKeyword "ZCORN"; DeckGetKeyword "COORD";
         DeckHasKeyword "ACTNUM" true; DeckGetKeyword "ACTNUM";
         DeckHasKeyword "DIMENS" true; DeckGetKeyword "DIMENS";
         DeckHasKeyword "MAPAXES" true; DeckGetKeyword "MAPAXES";
         Malloc 6 7 ]
  /\ dmem (world out.2) !! 7%positive = Some [0; 1; 0; 0; 1; 0]%float
  /\ dmem (world out.2) !! 5%positive = Some (exportZCORN Examples.grid).
Proof. vm_compute. repeat split. Qed.

(** A deck with [SPECGRID] only, and no [MAPAXES]. *)
Example createGrdecl_SPECGRID_example :
  let out := createGrdecl Examples.ext Examples.deck_specgrid
               (Build_Frame Examples.deck_world Examples.blank) in
  out.1 = Ok tt
  /\ obj out.2 = Build_grdecl (2, 1, 1) (Ptr 6) (Ptr 5) (Ptr 2) NULL
  /\ world out.2
     = Build_World (dmem Examples.deck_world) (imem Examples.deck_world)
         [ DeckGetKeyword "ZCORN"; DeckGetKeyword "COORD";
           DeckHasKeyword "ACTNUM" true; DeckGetKeyword "ACTNUM";
           DeckHasKeyword "DIMENS" false; DeckHasKeyword "SPECGRID" true;
           DeckGetKeyword "SPECGRID"; DeckHasKeyword "MAPAXES" false ].
Proof. vm_compute. repeat split. Qed.

(** A deck without [ZCORN]: the accessor's exception, before any
    dimension keyword is looked at. *)
Example createGrdecl_no_arrays_example :
  (createGrdecl Examples.ext [Examples.DIMENS]
     (Build_Frame empty_world Examples.blank)).1
  = Throw (library_exception "Deck::getKeyword").
Proof. vm_compute. reflexivity. Qed.

(** ** Reduction of runs *)

Ltac project :=
  repeat match goal with
  | |- context [world (Build_Frame ?w ?o)] =>
      change (world (Build_Frame w o)) with w
  | |- context [obj (Build_Frame ?w ?o)] =>
      change (obj (Build_Frame w o)) with o
  | |- context [dmem (Build_World ?d ?i ?t)] =>
      change (dmem (Build_World d i t)) with d
  | |- context [imem (Build_World ?d ?i ?t)] =>
      change (imem (Build_World d i t)) with i
  | |- context [trace (Build_World ?d ?i ?t)] =>
      change (trace (Build_World d i t)) with t
  end.

Ltac reduce :=
  repeat progress
    (unfold bind;
     cbn [world obj dmem imem trace dims coord zcorn actnum mapaxes ug_
          fst snd];
     project).

Lemma new_events_app (w : World) (d : gmap positive (list double))
    (i : gmap positive (list Z)) (evs : list Event) :
  new_events w (Build_World d i (trace w ++ evs)) = evs.
Proof. unfold new_events. cbn [trace]. apply drop_app_length. Qed.

(** Storage allocated for a local is not storage that was live before. *)
Lemma fresh_dom_None {V} (m : gmap positive V) : m !! fresh (dom m) = None.
Proof. apply not_elem_of_dom, is_fresh. Qed.

(** The addresses the vectors got their storage at, named one by one,
    oldest first. *)
Ltac name_fresh :=
  repeat match goal with
  | |- context [fresh (dom ?m)] =>
      lazymatch m with
      | context [fresh _] => fail
      | _ => let N := fresh "N" in
             let a := fresh "a" in
             pose proof (fresh_dom_None m) as N;
             set (a := fresh (dom m)) in *; clearbody a
      end
  end.

Ltac run :=
  repeat progress
    (reduce; rewrite ?lookup_insert_eq, ?lookup_insert_ne by done;
     unfold default; cbn [from_option id];
     try change (0 <? 0) with false).

(** Two outcomes that differ in memory only. *)
Lemma outcome_eq {A T} (r : Result A) (o : T) (t : list Event)
    (d d' : gmap positive (list double)) (i i' : gmap positive (list Z)) :
  d = d' -> i = i' ->
  (r, Build_Frame (Build_World d i t) o)
  = (r, Build_Frame (Build_World d' i' t) o).
Proof. by intros -> ->. Qed.

(** Memory after the locals are gone is memory as it was. *)
Ltac restored :=
  first
    [ reflexivity
    | apply map_eq; intros ?; rewrite ?lookup_delete, ?lookup_insert;
      repeat case_decide; subst; done ].

Lemma initFromEclipseGrid_run ext inputGrid poreVolumes w this :
  initFromEclipseGrid ext inputGrid poreVolumes (Build_Frame w this)
  = (pipeline_result ext inputGrid poreVolumes,
     Build_Frame
       (Build_World (dmem w) (imem w)
          (trace w ++ pipeline_events ext inputGrid poreVolumes))
       (Build_GridManager (assembled ext inputGrid poreVolumes))).
Proof.
  destruct w as [dm im tr].
  unfold pipeline_result, pipeline_events, attach_call, assembly_call,
    assembled, assembly_input, assembly_zcorn, assembly_actnum,
    reported_cells, filtering_call, filtering_answer, filtering_requested,
    tolerance, extracted_dims, behind.
  unfold initFromEclipseGrid, new_ivector, new_dvector.
  destruct (exportMAPAXES inputGrid) as [|m0 lm];
  destruct (exportCOORD inputGrid) as [|c0 lc];
  destruct (exportZCORN inputGrid) as [|z0 lz];
  destruct (exportACTNUM inputGrid) as [|k0 lk].
  all: unfold assign_dvector, assign_ivector.
  all: unfold bind at 1 2 3 4 5 6 7 8, ret at 1 2 3 4.
  all: cbn [data world obj dmem imem trace set_dmem set_imem vector_empty].
  all: name_fresh.
  all: repeat match goal with
       | N : <[?a := _]> _ !! ?b = None |- _ =>
           let H := fresh "H" in
           assert (H : b <> a)
             by (intros ->; by rewrite lookup_insert_eq in N);
           rewrite lookup_insert_ne in N by done
       end.
  all: unfold finally, MinpvProcessor_process, call_create_grid_cornerpoint,
         call_attach_zcorn_copy, get_obj, modify_obj, OPM_THROW, throw, view,
         destroy_locals, free_d, free_i, elements_d, elements_i,
         overwrite_d, overwrite_i, emit, record_call, ret, get_world,
         set_dmem, set_imem;
       unfold deref_d, deref_i; cbn [data].
  all: destruct (negb (vector_empty poreVolumes)
                 && ModeEnum_neqb (getMinpvMode inputGrid) Inactive).
  all: run.
  all: try (destruct (mp_process _ _ _ _ _ _ _) as [[n act'] zc'] eqn:E;
            run).
  all: match goal with
       | |- context [create_grid_cornerpoint ?e ?g ?t] =>
           destruct (is_null (create_grid_cornerpoint e g t))
       end; [|try destruct (0 <? n)].
  all: run; rewrite <- ?app_assoc; cbn [app].
  all: apply outcome_eq; restored.
Qed.

(** ** The geological-source path *)

Lemma filtering_requested_true inputGrid (poreVolumes : list double) :
  filtering_requested inputGrid poreVolumes = true
  <-> poreVolumes <> [] /\ getMinpvMode inputGrid <> Inactive.
Proof.
  unfold filtering_requested.
  destruct poreVolumes, (getMinpvMode inputGrid); cbn; split;
    intros; try discriminate; try done; destruct H; congruence.
Qed.

Lemma filtering_requested_false inputGrid (poreVolumes : list double) :
  filtering_requested inputGrid poreVolumes = false
  <-> ~ (poreVolumes <> [] /\ getMinpvMode inputGrid <> Inactive).
Proof.
  rewrite <- filtering_requested_true.
  destruct (filtering_requested _ _); split; intros; congruence.
Qed.

Lemma init_events ext inputGrid poreVolumes w this :
  new_events w
    (world (initFromEclipseGrid ext inputGrid poreVolumes
              (Build_Frame w this)).2)
  = pipeline_events ext inputGrid poreVolumes.
Proof. rewrite initFromEclipseGrid_run. apply new_events_app. Qed.

Lemma init_result ext inputGrid poreVolumes w this :
  (initFromEclipseGrid ext inputGrid poreVolumes (Build_Frame w this)).1
  = pipeline_result ext inputGrid poreVolumes.
Proof. by rewrite initFromEclipseGrid_run. Qed.

Lemma init_obj ext inputGrid poreVolumes w this :
  obj (initFromEclipseGrid ext inputGrid poreVolumes (Build_Frame w this)).2
  = Build_GridManager (assembled ext inputGrid poreVolumes).
Proof. by rewrite initFromEclipseGrid_run. Qed.

(** The calls of a run, one by one. *)
Lemma in_pipeline_events ext inputGrid poreVolumes (e : Event) :
  e ∈ pipeline_events ext inputGrid poreVolumes
  <-> (filtering_requested inputGrid poreVolumes = true
       /\ e = filtering_call ext inputGrid poreVolumes)
      \/ e = assembly_call ext inputGrid poreVolumes
      \/ (is_null (assembled ext inputGrid poreVolumes) = false
          /\ 0 < reported_cells ext inputGrid poreVolumes
          /\ e = attach_call ext inputGrid poreVolumes).
Proof.
  unfold pipeline_events.
  rewrite !elem_of_app, list_elem_of_singleton.
  destruct (filtering_requested inputGrid poreVolumes);
    destruct (is_null (assembled ext inputGrid poreVolumes));
    destruct (Z.ltb_spec 0 (reported_cells ext inputGrid poreVolumes));
    rewrite ?list_elem_of_singleton, ?elem_of_nil;
    intuition (try discriminate; try lia).
Qed.

Lemma filtering_call_in ext inputGrid poreVolumes :
  filtering_requested inputGrid poreVolumes = true ->
  filtering_call ext inputGrid poreVolumes
    ∈ pipeline_events ext inputGrid poreVolumes.
Proof. intros. apply in_pipeline_events. by left. Qed.

Lemma assembly_call_in ext inputGrid poreVolumes :
  assembly_call ext inputGrid poreVolumes
    ∈ pipeline_events ext inputGrid poreVolumes.
Proof. apply in_pipeline_events. right; by left. Qed.

Lemma pipeline_result_Ok ext inputGrid poreVolumes :
  pipeline_result ext inputGrid poreVolumes = Ok tt
  <-> is_null (assembled ext inputGrid poreVolumes) = false.
Proof.
  unfold pipeline_result.
  destruct (is_null _); split; intros; congruence.
Qed.

Lemma is_null_false (p : pointer) : is_null p = false <-> p <> NULL.
Proof. destruct p; cbn; split; intros; congruence. Qed.

(** C1: in [initFromEclipseGrid], when the assembler has returned a
    handle, [attach_zcorn_copy] is called if and only if the filtering
    pass ran and reported one or more modified cells.  When it is called,
    it is the last call, it follows the assembler's, and it gets the
    handle now in [ug_] together with [zcorn.data()]: the corner
    elevations as the filtering pass left them, and a null pointer when
    the grid exported no elevation at all. *)
Theorem attach_zcorn_iff_cells_modified ext inputGrid poreVolumes w this :
  let out := initFromEclipseGrid ext inputGrid poreVolumes
               (Build_Frame w this) in
  let evs := new_events w (world out.2) in
  out.1 = Ok tt ->
  (exists g tol,
      CreateGridCornerpoint g tol (ug_ (obj out.2)) ∈ evs
      /\ ug_ (obj out.2) <> NULL)
  /\ ((exists ug zc, AttachZcornCopy ug zc ∈ evs)
      <-> (exists d pv minpv act opmfil zc n,
              MinpvProcess d pv minpv act opmfil zc n ∈ evs /\ 0 < n))
  /\ (forall ug zc, AttachZcornCopy ug zc ∈ evs ->
        ug = ug_ (obj out.2)
        /\ (exists d pv minpv act opmfil zc0 n,
               MinpvProcess d pv minpv act opmfil zc0 n ∈ evs
               /\ 0 < n
               /\ zc = behind zc0 (mp_process ext d pv minpv act opmfil zc0).2)
        /\ (exists before g tol,
               evs = before ++ [CreateGridCornerpoint g tol ug;
                                AttachZcornCopy ug zc])).
Proof.
  cbv zeta. rewrite init_events, init_result, init_obj. cbn [ug_].
  intros Hok%pipeline_result_Ok. split; [|split].
  - eexists _, _. split; [apply assembly_call_in | by apply is_null_false].
  - split.
    + intros (ug & zc & [[_ E] | [E | (_ & Hn & E)]]%in_pipeline_events);
        try discriminate E.
      unfold reported_cells in Hn.
      destruct (filtering_requested inputGrid poreVolumes) eqn:Hreq;
        [|lia].
      do 7 eexists. split; [by apply filtering_call_in | exact Hn].
    + intros (d & pv & minpv & act & opmfil & zc & n & Hin & Hn).
      apply in_pipeline_events in Hin as [[Hreq E] | [E | (_ & _ & E)]];
        try discriminate E.
      injection E as -> -> -> -> -> -> ->.
      eexists _, _. apply in_pipeline_events. right; right.
      split; [done|]. split; [|reflexivity].
      unfold reported_cells. by rewrite Hreq.
  - intros ug zc [[_ E] | [E | (_ & Hn & E)]]%in_pipeline_events;
      try discriminate E.
    injection E as -> ->.
    unfold reported_cells in Hn.
    destruct (filtering_requested inputGrid poreVolumes) eqn:Hreq; [|lia].
    split; [reflexivity|]. split.
    + do 7 eexists. split; [by apply filtering_call_in|]. split; [exact Hn|].
      unfold assembly_zcorn. by rewrite Hreq.
    + unfold pipeline_events. rewrite Hok.
      unfold reported_cells. rewrite Hreq.
      destruct (Z.ltb_spec 0 (filtering_answer ext inputGrid poreVolumes).1.1);
        [|lia].
      eexists [_], _, _. reflexivity.
Qed.

(** One cell whose pore volume makes the processor report a modified
    cell: construction succeeds and the elevations are attached. *)
Lemma attach_zcorn_iff_cells_modified_witness :
  let out := initFromEclipseGrid Examples.ext Examples.grid
               Examples.poreVolumes
               (Build_Frame empty_world (Build_GridManager NULL)) in
  out.1 = Ok tt
  /\ exists ug zc,
       AttachZcornCopy ug zc ∈ new_events empty_world (world out.2).
Proof.
  cbv zeta.
  assert (Hok : (initFromEclipseGrid Examples.ext Examples.grid
                   Examples.poreVolumes
                   (Build_Frame empty_world (Build_GridManager NULL))).1
                = Ok tt) by (vm_compute; reflexivity).
  split; [exact Hok|].
  apply (attach_zcorn_iff_cells_modified _ _ _ _ _ Hok).
  vm_compute. do 7 eexists. split; [left | reflexivity].
Defined.

(** C2: in [initFromEclipseGrid], the filtering pass is called if and
    only if the pore volumes are not empty and the minpv mode is not
    [Inactive]; when it is called, its call is the first and the
    assembler's is the next; when it is not, the assembler's call is the
    only one and gets the activity and corner-elevation arrays as they
    were exported: behind [actnum.data()] and [zcorn.data()] are the
    exported elements, and the pointer is null for an array exported
    empty. *)
Theorem minpv_invoked_iff_requested ext inputGrid poreVolumes w this :
  let evs := new_events w
               (world (initFromEclipseGrid ext inputGrid poreVolumes
                         (Build_Frame w this)).2) in
  ((exists d pv minpv act opmfil zc n,
       MinpvProcess d pv minpv act opmfil zc n ∈ evs)
   <-> poreVolumes <> [] /\ getMinpvMode inputGrid <> Inactive)
  /\ (forall d pv minpv act opmfil zc n,
        MinpvProcess d pv minpv act opmfil zc n ∈ evs ->
        exists g tol ug rest,
          evs = MinpvProcess d pv minpv act opmfil zc n
                :: CreateGridCornerpoint g tol ug :: rest)
  /\ (~ (poreVolumes <> [] /\ getMinpvMode inputGrid <> Inactive) ->
      exists g tol ug,
        evs = [CreateGridCornerpoint g tol ug]
        /\ v_actnum g
           = behind (exportACTNUM inputGrid) (exportACTNUM inputGrid)
        /\ v_zcorn g
           = behind (exportZCORN inputGrid) (exportZCORN inputGrid)).
Proof.
  cbv zeta. rewrite init_events. split; [|split].
  - rewrite <- filtering_requested_true. split.
    + intros (d & pv & minpv & act & opmfil & zc & n & Hin).
      apply in_pipeline_events in Hin as [[Hreq _] | [E | (_ & _ & E)]];
        [done | discriminate E..].
    + intros Hreq. do 7 eexists. by apply filtering_call_in.
  - intros d pv minpv act opmfil zc n
      [[Hreq E] | [E | (_ & _ & E)]]%in_pipeline_events;
      try discriminate E.
    unfold pipeline_events. rewrite Hreq, E. do 4 eexists. reflexivity.
  - intros Hreq%filtering_requested_false.
    unfold pipeline_events, reported_cells. rewrite Hreq.
    do 3 eexists. split.
    + cbn [app]. destruct (is_null _); reflexivity.
    + cbn [v_actnum v_zcorn assembly_input].
      unfold assembly_actnum, assembly_zcorn. by rewrite Hreq.
Qed.

(** C3: the tolerance [initFromEclipseGrid] passes to the assembler is
    the pinch threshold thickness of the grid when pinch is active, and
    [0.0] when it is not, whatever threshold the grid carries. *)
Theorem z_tolerance_from_pinch ext inputGrid poreVolumes w this :
  let evs := new_events w
               (world (initFromEclipseGrid ext inputGrid poreVolumes
                         (Build_Frame w this)).2) in
  (exists g ug, CreateGridCornerpoint g (tolerance inputGrid) ug ∈ evs)
  /\ (forall g z_tolerance ug,
        CreateGridCornerpoint g z_tolerance ug ∈ evs ->
        (isPinchActive inputGrid = true ->
         z_tolerance = getPinchThresholdThickness inputGrid)
        /\ (isPinchActive inputGrid = false -> z_tolerance = 0%float)).
Proof.
  cbv zeta. rewrite init_events. split.
  - eexists _, _. apply assembly_call_in.
  - intros g t ug [[_ E] | [E | (_ & _ & E)]]%in_pipeline_events;
      try discriminate E.
    injection E as -> -> ->. unfold tolerance. split; intros ->; reflexivity.
Qed.

(** C8: every call [initFromEclipseGrid] makes to the filtering pass has
    the strategy flag [true], and for each mode other than [Inactive]
    (with pore volumes given) the call is made, with that flag. *)
Theorem minpv_opmfil_always_true ext inputGrid poreVolumes w this :
  let evs := new_events w
               (world (initFromEclipseGrid ext inputGrid poreVolumes
                         (Build_Frame w this)).2) in
  (forall d pv minpv act opmfil zc n,
      MinpvProcess d pv minpv act opmfil zc n ∈ evs -> opmfil = true)
  /\ (forall mode, getMinpvMode inputGrid = mode -> mode <> Inactive ->
      poreVolumes <> [] ->
      exists n,
        MinpvProcess (getNX inputGrid, getNY inputGrid, getNZ inputGrid)
          poreVolumes (getMinpvValue inputGrid) (exportACTNUM inputGrid)
          true (exportZCORN inputGrid) n ∈ evs).
Proof.
  cbv zeta. rewrite init_events. split.
  - intros d pv minpv act opmfil zc n
      [[_ E] | [E | (_ & _ & E)]]%in_pipeline_events;
      try discriminate E.
    by injection E as -> -> -> -> -> -> ->.
  - intros mode <- Hmode Hpv. eexists.
    apply filtering_call_in, filtering_requested_true. done.
Qed.

(** C10: the assembler is called once by [initFromEclipseGrid]; the
    dimensions, the pillar coordinates and the areal transform it gets
    are those exported from the grid; the activity and corner-elevation
    arrays it gets are those exported when the filtering pass was not
    called, and otherwise those the filtering pass left.  Each array is
    passed as [data()] of the vector it was exported into, so an array
    exported empty (a grid without areal transform, say) is passed as a
    null pointer. *)
Theorem assembly_input_frame ext inputGrid poreVolumes w this :
  let evs := new_events w
               (world (initFromEclipseGrid ext inputGrid poreVolumes
                         (Build_Frame w this)).2) in
  exists g tol ug,
    CreateGridCornerpoint g tol ug ∈ evs
    /\ (forall g' tol' ug', CreateGridCornerpoint g' tol' ug' ∈ evs ->
          g' = g /\ tol' = tol /\ ug' = ug)
    /\ v_dims g = (getNX inputGrid, getNY inputGrid, getNZ inputGrid)
    /\ v_coord g = behind (exportCOORD inputGrid) (exportCOORD inputGrid)
    /\ v_mapaxes g
       = behind (exportMAPAXES inputGrid) (exportMAPAXES inputGrid)
    /\ ((forall d pv minpv act opmfil zc n,
            MinpvProcess d pv minpv act opmfil zc n ∉ evs) ->
        v_actnum g
        = behind (exportACTNUM inputGrid) (exportACTNUM inputGrid)
        /\ v_zcorn g
           = behind (exportZCORN inputGrid) (exportZCORN inputGrid))
    /\ (forall d pv minpv act opmfil zc n,
          MinpvProcess d pv minpv act opmfil zc n ∈ evs ->
          v_actnum g
          = behind act (mp_process ext d pv minpv act opmfil zc).1.2
          /\ v_zcorn g
             = behind zc (mp_process ext d pv minpv act opmfil zc).2).
Proof.
  cbv zeta. rewrite init_events.
  eexists _, _, _. split; [apply assembly_call_in|].
  split; [|split; [reflexivity|split; [reflexivity|split; [reflexivity|]]]].
  - intros g' tol' ug' [[_ E] | [E | (_ & _ & E)]]%in_pipeline_events;
      try discriminate E.
    by injection E as -> -> ->.
  - cbn [v_actnum v_zcorn assembly_input].
    unfold assembly_actnum, assembly_zcorn. split.
    + intros Hno.
      destruct (filtering_requested inputGrid poreVolumes) eqn:Hreq;
        [|by split].
      exfalso. eapply Hno. by apply filtering_call_in.
    + intros d pv minpv act opmfil zc n
        [[Hreq E] | [E | (_ & _ & E)]]%in_pipeline_events;
        try discriminate E.
      injection E as -> -> -> -> -> -> ->. by rewrite Hreq.
Qed.

(** ** The constructors *)

(** The run of a constructor whose body is one factory call and the null
    check. *)
Lemma construct_factory_run (init : GridManager)
    (call : M GridManager pointer) (e : pointer -> Event) (ug : pointer)
    (message : string) :
  (forall f, call f = (Ok ug, Build_Frame (record_call (e ug) (world f))
                               (obj f))) ->
  factory_returned (e ug) = Some ug ->
  runs_factory message
    (construct init
       (let! ug := call in
        modify_obj (fun _ => Build_GridManager ug) ;;
        check_ug message)).
Proof.
  intros Hcall He w. exists [e ug], ug. split; [cbn; by rewrite He|].
  unfold construct, bind. rewrite Hcall.
  unfold modify_obj, check_ug, bind, get_obj, OPM_THROW, throw, ret,
    record_call.
  cbn [world obj ug_ dmem imem trace]. destruct (is_null ug); reflexivity.
Qed.

Lemma pipeline_factory_calls ext inputGrid poreVolumes :
  omap factory_returned (pipeline_events ext inputGrid poreVolumes)
  = [assembled ext inputGrid poreVolumes].
Proof.
  unfold pipeline_events.
  destruct (filtering_requested inputGrid poreVolumes),
    (is_null (assembled ext inputGrid poreVolumes)),
    (0 <? reported_cells ext inputGrid poreVolumes); reflexivity.
Qed.

Lemma construct_initFromEclipseGrid ext inputGrid poreVolumes init :
  runs_factory "Failed to construct grid."
    (construct init (initFromEclipseGrid ext inputGrid poreVolumes)).
Proof.
  intros w.
  exists (pipeline_events ext inputGrid poreVolumes),
    (assembled ext inputGrid poreVolumes).
  split; [apply pipeline_factory_calls|].
  unfold construct. rewrite initFromEclipseGrid_run. unfold pipeline_result.
  destruct (is_null (assembled ext inputGrid poreVolumes)); reflexivity.
Qed.

(** All seven constructors are such runs. *)
Lemma constructors_run ext ug0 :
  (forall inputGrid,
      runs_factory "Failed to construct grid."
        (GridManager_EclipseGrid ext inputGrid))
  /\ (forall inputGrid poreVolumes,
      runs_factory "Failed to construct grid."
        (GridManager_EclipseGrid_poreVolumes ext inputGrid poreVolumes))
  /\ (forall nx ny,
      runs_factory "Failed to construct grid." (GridManager_2d ext ug0 nx ny))
  /\ (forall nx ny dx dy,
      runs_factory "Failed to construct grid."
        (GridManager_2d_sized ext ug0 nx ny dx dy))
  /\ (forall nx ny nz,
      runs_factory "Failed to construct grid."
        (GridManager_3d ext ug0 nx ny nz))
  /\ (forall nx ny nz dx dy dz,
      runs_factory "Failed to construct grid."
        (GridManager_3d_sized ext ug0 nx ny nz dx dy dz))
  /\ (forall input_filename,
      runs_factory
        ("Failed to read grid from file " ++ input_filename)%string
        (GridManager_file ext ug0 input_filename)).
Proof.
  repeat apply conj; intros.
  - apply construct_initFromEclipseGrid.
  - apply construct_initFromEclipseGrid.
  - by apply (construct_factory_run _ _ (CreateGridCart2d nx ny 1 1)
                (create_grid_cart2d ext nx ny 1 1)).
  - by apply (construct_factory_run _ _ (CreateGridCart2d nx ny dx dy)
                (create_grid_cart2d ext nx ny dx dy)).
  - by apply (construct_factory_run _ _ (CreateGridCart3d nx ny nz)
                (create_grid_cart3d ext nx ny nz)).
  - by apply (construct_factory_run _ _ (CreateGridHexa3d nx ny nz dx dy dz)
                (create_grid_hexa3d ext nx ny nz dx dy dz)).
  - by apply (construct_factory_run _ _ (ReadGrid input_filename)
                (read_grid ext input_filename)).
Qed.

Lemma runs_factory_fails_or_valid (message : string) ctor :
  runs_factory message ctor -> fails_or_valid message ctor.
Proof.
  intros H w. destruct (H w) as (evs & ug & He & ->). cbv zeta.
  cbn [fst snd]. rewrite new_events_app.
  assert (Hin : forall e p, e ∈ evs -> factory_returned e = Some p -> p = ug).
  { intros e p Hin Hp.
    assert (p ∈ omap factory_returned evs) as Hp'
      by (apply list_elem_of_omap; eauto).
    rewrite He in Hp'. by apply list_elem_of_singleton in Hp'. }
  assert (Hex : exists e, e ∈ evs /\ factory_returned e = Some ug).
  { apply list_elem_of_omap. rewrite He. by apply list_elem_of_singleton. }
  split; [by exists ug|split].
  - intros e Hein Hnull. by rewrite <- (Hin _ _ Hein Hnull).
  - intros m Hm. destruct ug; [discriminate|]. injection Hm as <-.
    split; [done|]. exact Hex.
Qed.

Lemma runs_factory_accessor_borrows (message : string) ctor :
  runs_factory message ctor -> accessor_borrows ctor.
Proof.
  intros H w w' m Hrun. destruct (H w) as (evs & ug & _ & Hctor).
  rewrite Hctor in Hrun. destruct ug; [discriminate|].
  injection Hrun as <- <-. cbv zeta.
  unfold c_grid, GridManager_destructor, call_destroy_grid, bind, get_obj,
    ret, emit.
  cbn [fst snd world obj ug_]. repeat split; [done|].
  unfold new_events, record_call. cbn [trace]. apply drop_app_length.
Qed.

(** C6: each of the seven constructors calls its factory (or the
    assembler) once; if that call returns null the constructor throws a
    [std::runtime_error], whose message ends with the file name for the
    file variant and is ["Failed to construct grid."] for the others;
    and a constructor that yields a manager yields one whose handle is
    the factory's answer and is not null. *)
Theorem construction_fails_or_valid ext ug0 :
  (forall inputGrid,
      fails_or_valid "Failed to construct grid."
        (GridManager_EclipseGrid ext inputGrid))
  /\ (forall inputGrid poreVolumes,
      fails_or_valid "Failed to construct grid."
        (GridManager_EclipseGrid_poreVolumes ext inputGrid poreVolumes))
  /\ (forall nx ny,
      fails_or_valid "Failed to construct grid."
        (GridManager_2d ext ug0 nx ny))
  /\ (forall nx ny dx dy,
      fails_or_valid "Failed to construct grid."
        (GridManager_2d_sized ext ug0 nx ny dx dy))
  /\ (forall nx ny nz,
      fails_or_valid "Failed to construct grid."
        (GridManager_3d ext ug0 nx ny nz))
  /\ (forall nx ny nz dx dy dz,
      fails_or_valid "Failed to construct grid."
        (GridManager_3d_sized ext ug0 nx ny nz dx dy dz))
  /\ (forall input_filename,
      fails_or_valid
        ("Failed to read grid from file " ++ input_filename)%string
        (GridManager_file ext ug0 input_filename)).
Proof.
  destruct (constructors_run ext ug0) as (H1 & H2 & H3 & H4 & H5 & H6 & H7).
  repeat apply conj; intros; by apply runs_factory_fails_or_valid.
Qed.

(** The reader of files answers null: the constructor throws and names
    the file; the cartesian factory answers: the manager holds its
    answer. *)
Lemma construction_fails_or_valid_witness :
  (GridManager_file Examples.ext NULL "grid.txt" empty_world).1
  = Throw (ConstructionError "Failed to read grid from file grid.txt")
  /\ ug_ (Build_GridManager (Ptr 1)) <> NULL.
Proof.
  destruct (construction_fails_or_valid Examples.ext NULL)
    as (_ & _ & H2d & _ & _ & _ & Hfile).
  split.
  - destruct (Hfile "grid.txt" empty_world) as (_ & Hnull & _).
    apply (Hnull (ReadGrid "grid.txt" NULL)); [vm_compute; left | reflexivity].
  - destruct (H2d 4 3 empty_world) as (_ & _ & Hok).
    apply (Hok (Build_GridManager (Ptr 1))). vm_compute; reflexivity.
Defined.

(** C9: on every manager any of the seven constructors yields, [c_grid]
    returns the handle the manager holds; that handle is not null; the
    call changes neither the manager nor the world, and the destructor
    run after it releases that same handle. *)
Theorem c_grid_borrows_valid_handle ext ug0 :
  (forall inputGrid, accessor_borrows (GridManager_EclipseGrid ext inputGrid))
  /\ (forall inputGrid poreVolumes,
      accessor_borrows
        (GridManager_EclipseGrid_poreVolumes ext inputGrid poreVolumes))
  /\ (forall nx ny, accessor_borrows (GridManager_2d ext ug0 nx ny))
  /\ (forall nx ny dx dy,
      accessor_borrows (GridManager_2d_sized ext ug0 nx ny dx dy))
  /\ (forall nx ny nz, accessor_borrows (GridManager_3d ext ug0 nx ny nz))
  /\ (forall nx ny nz dx dy dz,
      accessor_borrows (GridManager_3d_sized ext ug0 nx ny nz dx dy dz))
  /\ (forall input_filename,
      accessor_borrows (GridManager_file ext ug0 input_filename)).
Proof.
  destruct (constructors_run ext ug0) as (H1 & H2 & H3 & H4 & H5 & H6 & H7).
  repeat apply conj; intros; by eapply runs_factory_accessor_borrows.
Qed.

(** A 4 by 3 cartesian grid: the accessor returns the factory's handle. *)
Lemma c_grid_borrows_valid_handle_witness :
  exists m w',
    GridManager_2d Examples.ext NULL 4 3 empty_world = (Ok m, w')
    /\ (c_grid (Build_Frame w' m)).1 = Ok (Ptr 1)
    /\ (c_grid (Build_Frame w' m)).2 = Build_Frame w' m.
Proof.
  destruct (c_grid_borrows_valid_handle Examples.ext NULL)
    as (_ & _ & H2d & _).
  eexists _, _. split; [vm_compute; reflexivity|].
  match goal with
  | |- (c_grid (Build_Frame ?w' ?m)).1 = _ /\ _ =>
      destruct (H2d 4 3 empty_world w' m) as (Hret & _ & Hsame & _);
      [vm_compute; reflexivity|]
  end.
  split; [exact Hret | exact Hsame].
Defined.

(** ** The keyword path: steps of a run *)

Section Steps.
Context {T A B : Type}.
Implicit Types (k : A -> M T B) (f : Frame T).

Lemma bind_ret (a : A) k f : bind (ret a) k f = k a f.
Proof. reflexivity. Qed.

Lemma bind_library_Some (s : string) (a : A) k f :
  bind (library s (Some a)) k f = k a f.
Proof. reflexivity. Qed.

Lemma bind_library_None (s : string) k f :
  bind (library s None) k f = (Throw (library_exception s), f).
Proof. reflexivity. Qed.

Lemma bind_OPM_THROW (Exception : string -> exn) (message : string) k f :
  bind (OPM_THROW Exception message) k f = (Throw (Exception message), f).
Proof. reflexivity. Qed.

Lemma bind_assoc {C} (m : M T C) (h : C -> M T A) k f :
  bind (bind m h) k f = bind m (fun c => bind (h c) k) f.
Proof. unfold bind. destruct (m f) as [[c|e] f']; reflexivity. Qed.

Lemma bind_eq (m : M T A) k f f' (r : Result A) :
  m f = (r, f') ->
  bind m k f = match r with Ok a => k a f' | Throw e => (Throw e, f') end.
Proof. unfold bind. by intros ->. Qed.
End Steps.

Section DeckSteps.
Context `{DeckAPI} {T B : Type}.

Lemma bind_getKeyword (deck : Deck) (n : string) (k : DeckKeyword -> M T B)
    (w : World) (o : T) :
  bind (deck_getKeyword deck n) k (Build_Frame w o)
  = bind (library "Deck::getKeyword" (getKeyword deck n)) k
      (Build_Frame (record_call (DeckGetKeyword n) w) o).
Proof. reflexivity. Qed.

Lemma bind_hasKeyword (deck : Deck) (n : string) (k : bool -> M T B)
    (w : World) (o : T) :
  bind (deck_hasKeyword deck n) k (Build_Frame w o)
  = k (hasKeyword deck n)
      (Build_Frame (record_call (DeckHasKeyword n (hasKeyword deck n)) w) o).
Proof. reflexivity. Qed.

Lemma bind_modify_obj (upd : T -> T) (k : unit -> M T B) (w : World)
    (o : T) :
  bind (modify_obj upd) k (Build_Frame w o) = k tt (Build_Frame w (upd o)).
Proof. reflexivity. Qed.

Lemma bind_malloc (ext : Externals) (count : nat) (k : positive -> M T B)
    (w : World) (o : T) :
  bind (malloc ext count) k (Build_Frame w o)
  = k (fresh (dom (dmem w)))
      (Build_Frame
         (record_call (Malloc count (fresh (dom (dmem w))))
            (set_dmem w
               (<[fresh (dom (dmem w)) :=
                    map (indeterminate ext) (seq 0 count)]> (dmem w))))
         o).
Proof. reflexivity. Qed.
End DeckSteps.

Ltac world_norm :=
  repeat progress
    (try unfold record_call; try unfold set_dmem; try unfold set_imem;
     cbn [world obj dmem imem trace]; project).

(** One step of a run: the computation at the head of a chain of binds
    is replaced by its effect.  A call into the library whose answer is
    known from the context is replaced by it; otherwise the run splits
    into the case where the call returns and the case where it throws. *)
Ltac step :=
  first
    [ lazymatch goal with
      | |- context [bind ?m ?k ?f] =>
          lazymatch m with
          | bind ?m' ?h => rewrite (bind_assoc m' h k f)
          | ret ?a => rewrite (bind_ret a k f)
          | deck_getKeyword _ _ => rewrite bind_getKeyword
          | deck_hasKeyword _ _ => rewrite bind_hasKeyword
          | modify_obj _ => rewrite bind_modify_obj
          | malloc _ _ => rewrite bind_malloc
          | OPM_THROW ?c ?s => rewrite (bind_OPM_THROW c s k f)
          | library ?s (Some ?a) => rewrite (bind_library_Some s a k f)
          | library ?s None => rewrite (bind_library_None s k f)
          | library ?s ?o =>
              first [ match goal with E : o = _ |- _ => rewrite E end
                    | destruct o eqn:? ]
          | (if ?b then _ else _) =>
              first [ match goal with E : b = _ |- _ => rewrite E end
                    | destruct b eqn:? ]
          end
      end
    | lazymatch goal with
      | |- context [(if ?b then ?x else ?y) (Build_Frame ?w ?o)] =>
          first [ match goal with E : b = _ |- _ => rewrite E end
                | destruct b eqn:? ]
      end ].

(** ** The keyword path: the loop that copies [MAPAXES] *)

Section FillLoop.
Context `{DeckAPI}.
Variable mapaxesRecord : DeckRecord.
Variable cWtfMapaxes : positive.

Lemma fill_Some (i : nat) (v : double) (f : Frame grdecl) :
  item_si_double mapaxesRecord i = Some v ->
  fill mapaxesRecord cWtfMapaxes i f = store_d cWtfMapaxes i v f.
Proof.
  unfold item_si_double, fill. intros Hr.
  destruct (getItem mapaxesRecord i) as [item|]; [|discriminate].
  cbn in Hr. rewrite bind_library_Some, Hr. apply bind_library_Some.
Qed.

Lemma fill_None (i : nat) (f : Frame grdecl) :
  item_si_double mapaxesRecord i = None ->
  exists s,
    fill mapaxesRecord cWtfMapaxes i f = (Throw (library_exception s), f).
Proof.
  unfold item_si_double, fill. intros Hr.
  destruct (getItem mapaxesRecord i) as [item|].
  - cbn in Hr. rewrite bind_library_Some, Hr.
    eexists. apply bind_library_None.
  - eexists. apply bind_library_None.
Qed.

(** Whatever the loop does, it only writes into the new buffer, and it
    ends normally or on an exception of the library. *)
Lemma fill_loop_frame (n : nat) :
  forall (i : nat) (f f' : Frame grdecl) (r : Result unit),
    for_loop n i (fill mapaxesRecord cWtfMapaxes) f = (r, f') ->
    obj f' = obj f
    /\ trace (world f') = trace (world f)
    /\ imem (world f') = imem (world f)
    /\ (forall b, b <> cWtfMapaxes ->
          dmem (world f') !! b = dmem (world f) !! b)
    /\ (r = Ok tt \/ exists s, r = Throw (library_exception s)).
Proof.
  induction n as [|n IH]; intros i f f' r.
  - cbn [for_loop]. unfold ret. intros [= <- <-]. repeat split; auto.
  - cbn [for_loop]. unfold bind.
    destruct (item_si_double mapaxesRecord i) as [v|] eqn:Hr.
    + rewrite (fill_Some _ _ _ Hr). unfold store_d.
      intros (Ho & Ht & Hi & Hd & Hr')%IH.
      cbn [world obj dmem imem trace set_dmem] in *.
      repeat split; try done.
      intros b Hb. rewrite (Hd b Hb). by rewrite lookup_alter_ne.
    + destruct (fill_None _ f Hr) as [s ->]. intros [= <- <-].
      repeat split; eauto.
Qed.

(** When every item can be read, the loop overwrites cells [i] to
    [i + n - 1] of the buffer with the SI values of items [i] to
    [i + n - 1], in order. *)
Lemma fill_loop_ok (n : nat) :
  forall (i : nat) (f : Frame grdecl) (cells vals : list double),
    mapM (item_si_double mapaxesRecord) (seq i n) = Some vals ->
    dmem (world f) !! cWtfMapaxes = Some cells ->
    (i + n <= length cells)%nat ->
    for_loop n i (fill mapaxesRecord cWtfMapaxes) f
    = (Ok tt,
       Build_Frame
         (set_dmem (world f)
            (<[cWtfMapaxes := take i cells ++ vals ++ drop (i + n) cells]>
               (dmem (world f))))
         (obj f)).
Proof.
  induction n as [|n IH]; intros i f cells vals Hvals Hcells Hlen.
  - cbn in Hvals. injection Hvals as <-. cbn [for_loop app].
    rewrite Nat.add_0_r, take_drop, insert_id by done.
    destruct f as [[dm im tr] o]. reflexivity.
  - cbn [seq mapM] in Hvals.
    destruct (item_si_double mapaxesRecord i) as [v|] eqn:Hr;
      [|discriminate].
    cbn in Hvals.
    destruct (mapM (item_si_double mapaxesRecord) (seq (S i) n))
      as [vals'|] eqn:Hrest; [|discriminate].
    cbn in Hvals. injection Hvals as <-.
    cbn [for_loop]. unfold bind at 1.
    rewrite (fill_Some _ _ _ Hr). unfold store_d at 1.
    assert (Hi : (i < length cells)%nat) by lia.
    rewrite (IH (S i) _ (<[i:=v]> cells) vals' Hrest).
    + cbn [world dmem set_dmem obj imem trace]. unfold set_dmem.
      cbn [dmem imem trace]. do 3 f_equal.
      apply map_eq. intros b.
      destruct (decide (b = cWtfMapaxes)) as [->|Hb].
      * rewrite !lookup_insert_eq. f_equal.
        rewrite (take_S_r _ _ v) by by apply list_lookup_insert_eq.
        rewrite take_insert_ge by done.
        rewrite drop_insert_lt by lia.
        rewrite <- app_assoc. cbn [app].
        by replace (S i + n)%nat with (i + S n)%nat by lia.
      * rewrite !lookup_insert_ne by done. by rewrite lookup_alter_ne.
    + cbn [world dmem set_dmem]. by rewrite lookup_alter_eq, Hcells.
    + rewrite length_insert. lia.
Qed.
End FillLoop.

(** ** The keyword path: [createGrdecl] *)

Section CreateGrdecl.
Context `{DeckAPI}.
Variable ext : Externals.

(** The [MAPAXES] block leaves the rest of the description alone, asks
    the deck about [MAPAXES] only, and ends normally or on an
    exception of the library. *)
Lemma mapaxes_block_frame deck (w : World) (o : grdecl) r f' :
  mapaxes_block ext deck (Build_Frame w o) = (r, f') ->
  dims (obj f') = dims o /\ zcorn (obj f') = zcorn o
  /\ coord (obj f') = coord o /\ actnum (obj f') = actnum o
  /\ imem (world f') = imem w
  /\ (exists evs, trace (world f') = trace w ++ evs
                  /\ forall n, n <> "MAPAXES" ->
                       existsb (consults n) evs = false)
  /\ (r = Ok tt \/ exists s, r = Throw (library_exception s)).
Proof.
  assert (Hn : forall n, n <> "MAPAXES" -> ("MAPAXES" =? n)%string = false)
    by (intros n Hn; apply String.eqb_neq; congruence).
  unfold mapaxes_block. destruct w as [dm im tr].
  repeat step.
  1: match goal with
    | |- context [bind (for_loop ?n ?i ?b) ?k ?f] =>
        destruct (for_loop n i b f) as [r' f''] eqn:Hloop;
        rewrite (bind_eq _ k _ _ _ Hloop);
        apply fill_loop_frame in Hloop as (Ho & Ht & Hi & Hd & Hr);
        destruct r' as [[]|e]
    end.
  all: unfold modify_obj; intros [= <- <-];
    cbn [record_call set_dmem world obj dmem imem trace] in *;
    rewrite ?Ho, ?Ht; rewrite <- ?app_assoc;
    (repeat split; [done..| |]);
    [ eexists; split; [reflexivity|];
      intros n Hne; cbn [existsb consults app]; by rewrite ?(Hn n Hne)
    | eauto ].
Qed.

Lemma mapaxes_block_absent deck (w : World) (o : grdecl) :
  hasKeyword deck "MAPAXES" = false ->
  mapaxes_block ext deck (Build_Frame w o)
  = (Ok tt,
     Build_Frame (record_call (DeckHasKeyword "MAPAXES" false) w)
       (set_mapaxes o NULL)).
Proof. intros Hno. unfold mapaxes_block. step. by rewrite Hno. Qed.

Lemma mapaxes_block_present deck (w : World) (o : grdecl) kw r vals :
  hasKeyword deck "MAPAXES" = true ->
  getKeyword deck "MAPAXES" = Some kw ->
  getRecord kw 0 = Some r ->
  record_si_doubles r = Some vals ->
  let buf := fresh (dom (dmem w)) in
  mapaxes_block ext deck (Build_Frame w o)
  = (Ok tt,
     Build_Frame
       (Build_World (<[buf := vals]> (dmem w)) (imem w)
          (trace w ++ [DeckHasKeyword "MAPAXES" true;
                       DeckGetKeyword "MAPAXES";
                       Malloc (record_size r) buf]))
       (set_mapaxes o (Ptr buf))).
Proof.
  intros Hhas Hkw Hr Hvals buf. unfold mapaxes_block.
  destruct w as [dm im tr].
  step. rewrite Hhas. step. rewrite Hkw. step. rewrite Hr. step. step.
  cbn [record_call set_dmem world obj dmem imem trace] in *.
  fold buf.
  erewrite bind_eq; cycle 1.
  { eapply (fill_loop_ok r buf _ 0 _ _ vals Hvals).
    - cbn [world dmem]. apply lookup_insert_eq.
    - by rewrite length_map, length_seq. }
  unfold modify_obj. world_norm.
  rewrite insert_insert_eq. rewrite <- !app_assoc. cbn [app take].
  rewrite drop_ge by (rewrite length_map, length_seq; cbn; lia).
  by rewrite app_nil_r.
Qed.

Lemma deck_arrays_Some deck z c a :
  deck_arrays deck = Some (z, c, a) ->
  exists zcorn_kw coord_kw,
    getKeyword deck "ZCORN" = Some zcorn_kw
    /\ getSIDoubleData zcorn_kw = Some z
    /\ getKeyword deck "COORD" = Some coord_kw
    /\ getSIDoubleData coord_kw = Some c
    /\ (if hasKeyword deck "ACTNUM"
        then exists actnum_kw data,
            getKeyword deck "ACTNUM" = Some actnum_kw
            /\ getIntData actnum_kw = Some data /\ a = Ptr data
        else a = NULL).
Proof.
  unfold deck_arrays. intros Harr.
  destruct (getKeyword deck "ZCORN") as [zk|] eqn:E1; [|discriminate].
  cbn in Harr.
  destruct (getSIDoubleData zk) as [z'|] eqn:E2; [|discriminate].
  cbn in Harr.
  destruct (getKeyword deck "COORD") as [ck|] eqn:E3; [|discriminate].
  cbn in Harr.
  destruct (getSIDoubleData ck) as [c'|] eqn:E4; [|discriminate].
  cbn in Harr.
  exists zk, ck.
  destruct (hasKeyword deck "ACTNUM").
  - destruct (getKeyword deck "ACTNUM") as [ak|] eqn:E5; [|discriminate].
    cbn in Harr.
    destruct (getIntData ak) as [data|] eqn:E6; [|discriminate].
    cbn in Harr. injection Harr as <- <- <-.
    do 4 (split; [done|]). exists ak, data. auto.
  - cbn in Harr. injection Harr as <- <- <-. by do 4 (split; [done|]).
Qed.

Lemma first_record_ints_Some deck name d0 d1 d2 :
  first_record_ints deck name = Some (d0, d1, d2) ->
  exists kw r i0 i1 i2,
    getKeyword deck name = Some kw /\ getRecord kw 0 = Some r
    /\ getItem r 0 = Some i0 /\ get_int i0 0 = Some d0
    /\ getItem r 1 = Some i1 /\ get_int i1 0 = Some d1
    /\ getItem r 2 = Some i2 /\ get_int i2 0 = Some d2.
Proof.
  unfold first_record_ints. intros Hd.
  destruct (getKeyword deck name) as [kw|] eqn:E1; [|discriminate].
  cbn in Hd.
  destruct (getRecord kw 0) as [r|] eqn:E2; [|discriminate]. cbn in Hd.
  destruct (getItem r 0) as [i0|] eqn:E3; [|discriminate]. cbn in Hd.
  destruct (get_int i0 0) as [e0|] eqn:E4; [|discriminate]. cbn in Hd.
  destruct (getItem r 1) as [i1|] eqn:E5; [|discriminate]. cbn in Hd.
  destruct (get_int i1 0) as [e1|] eqn:E6; [|discriminate]. cbn in Hd.
  destruct (getItem r 2) as [i2|] eqn:E7; [|discriminate]. cbn in Hd.
  destruct (get_int i2 0) as [e2|] eqn:E8; [|discriminate]. cbn in Hd.
  injection Hd as <- <- <-.
  exists kw, r, i0, i1, i2. by do 7 (split; [done|]).
Qed.

(** [createGrdecl] ends with the [MAPAXES] block. *)
Ltac to_mapaxes_block deck :=
  unfold createGrdecl;
  change (bind (deck_hasKeyword deck "MAPAXES") _)
    with (mapaxes_block ext deck).

Ltac use_arrays Harr :=
  apply deck_arrays_Some in Harr
    as (zcorn_kw & coord_kw & Hzk & Hz & Hck & Hc & Hact).

Ltac use_dims Hd :=
  apply first_record_ints_Some in Hd
    as (kw & r & i0 & i1 & i2 & Hkw & Hr & Hi0 & Hd0 & Hi1 & Hd1
        & Hi2 & Hd2).

(** The run up to the [MAPAXES] block when the deck has [DIMENS]. *)
Lemma createGrdecl_DIMENS deck w g z c a d :
  deck_arrays deck = Some (z, c, a) ->
  hasKeyword deck "DIMENS" = true ->
  first_record_ints deck "DIMENS" = Some d ->
  createGrdecl ext deck (Build_Frame w g)
  = mapaxes_block ext deck
      (Build_Frame
         (Build_World (dmem w) (imem w)
            (trace w ++ array_events deck
               ++ [DeckHasKeyword "DIMENS" true; DeckGetKeyword "DIMENS"]))
         (before_mapaxes g z c a d)).
Proof.
  intros Harr Hhas Hd. destruct d as [[d0 d1] d2].
  use_arrays Harr. use_dims Hd.
  to_mapaxes_block deck. destruct w as [dm im tr].
  unfold array_events.
  destruct (hasKeyword deck "ACTNUM") eqn:Hhas_act.
  - destruct Hact as (actnum_kw & data & Hak & Hdata & ->).
    repeat step. world_norm. by rewrite <- !app_assoc.
  - subst a. repeat step. world_norm. by rewrite <- !app_assoc.
Qed.

(** The run up to the [MAPAXES] block when the deck has [SPECGRID]
    and no [DIMENS]. *)
Lemma createGrdecl_SPECGRID deck w g z c a d :
  deck_arrays deck = Some (z, c, a) ->
  hasKeyword deck "DIMENS" = false ->
  hasKeyword deck "SPECGRID" = true ->
  first_record_ints deck "SPECGRID" = Some d ->
  createGrdecl ext deck (Build_Frame w g)
  = mapaxes_block ext deck
      (Build_Frame
         (Build_World (dmem w) (imem w)
            (trace w ++ array_events deck
               ++ [DeckHasKeyword "DIMENS" false;
                   DeckHasKeyword "SPECGRID" true;
                   DeckGetKeyword "SPECGRID"]))
         (before_mapaxes g z c a d)).
Proof.
  intros Harr Hno Hhas Hd. destruct d as [[d0 d1] d2].
  use_arrays Harr. use_dims Hd.
  to_mapaxes_block deck. destruct w as [dm im tr].
  unfold array_events.
  destruct (hasKeyword deck "ACTNUM") eqn:Hhas_act.
  - destruct Hact as (actnum_kw & data & Hak & Hdata & ->).
    repeat step. world_norm. by rewrite <- !app_assoc.
  - subst a. repeat step. world_norm. by rewrite <- !app_assoc.
Qed.

(** The run when the deck has neither. *)
Lemma createGrdecl_neither deck w g z c a :
  deck_arrays deck = Some (z, c, a) ->
  hasKeyword deck "DIMENS" = false ->
  hasKeyword deck "SPECGRID" = false ->
  createGrdecl ext deck (Build_Frame w g)
  = (Throw SchemaError,
     Build_Frame
       (Build_World (dmem w) (imem w)
          (trace w ++ array_events deck
             ++ [DeckHasKeyword "DIMENS" false;
                 DeckHasKeyword "SPECGRID" false]))
       g).
Proof.
  intros Harr Hno Hno'. use_arrays Harr.
  to_mapaxes_block deck. destruct w as [dm im tr].
  unfold array_events.
  destruct (hasKeyword deck "ACTNUM") eqn:Hhas_act.
  - destruct Hact as (actnum_kw & data & Hak & Hdata & ->).
    repeat step. world_norm. by rewrite <- !app_assoc.
  - subst a. repeat step. world_norm. by rewrite <- !app_assoc.
Qed.

(** [SchemaError] comes from one place only, whatever the deck. *)
Lemma createGrdecl_SchemaError_inv deck w g f' :
  createGrdecl ext deck (Build_Frame w g) = (Throw SchemaError, f') ->
  hasKeyword deck "DIMENS" = false /\ hasKeyword deck "SPECGRID" = false
  /\ obj f' = g.
Proof.
  to_mapaxes_block deck.
  repeat (step; try (intros [= <- <-]; fail)).
  all: try (intros [= <-]; by repeat split).
  all: intros (_ & _ & _ & _ & _ & _ & [|[s ?]])%mapaxes_block_frame;
    discriminate.
Qed.

Lemma array_events_consult deck (n : string) :
  n <> "ZCORN" -> n <> "COORD" -> n <> "ACTNUM" ->
  existsb (consults n) (array_events deck) = false.
Proof.
  intros Hz Hc Ha. unfold array_events.
  assert (("ZCORN" =? n)%string = false) as E1
    by (apply String.eqb_neq; congruence).
  assert (("COORD" =? n)%string = false) as E2
    by (apply String.eqb_neq; congruence).
  assert (("ACTNUM" =? n)%string = false) as E3
    by (apply String.eqb_neq; congruence).
  destruct (hasKeyword deck "ACTNUM"); cbn [existsb consults app];
    by rewrite E1, E2, E3.
Qed.
End CreateGrdecl.

(** ** The keyword path: dimensions, the dimension check, the transform *)

(** C4: in [createGrdecl], on a deck whose arrays can be read, when
    [DIMENS] is present the dimensions stored are the first three items
    of its first record and the deck is never asked about [SPECGRID]
    (so also when [SPECGRID] is present); when only [SPECGRID] is
    present the dimensions stored are the first three items of its first
    record. *)
Theorem createGrdecl_dims_precedence `{DeckAPI} ext (deck : Deck) w g z c a :
  deck_arrays deck = Some (z, c, a) ->
  let out := createGrdecl ext deck (Build_Frame w g) in
  let evs := new_events w (world out.2) in
  (forall d,
      hasKeyword deck "DIMENS" = true ->
      first_record_ints deck "DIMENS" = Some d ->
      dims (obj out.2) = d
      /\ existsb (consults "SPECGRID") evs = false
      /\ existsb (consults "DIMENS") evs = true)
  /\ (forall d,
      hasKeyword deck "DIMENS" = false ->
      hasKeyword deck "SPECGRID" = true ->
      first_record_ints deck "SPECGRID" = Some d ->
      dims (obj out.2) = d
      /\ existsb (consults "SPECGRID") evs = true).
Proof.
  intros Harr. cbv zeta. split.
  - intros d Hhas Hd. rewrite (createGrdecl_DIMENS _ _ _ _ _ _ _ _ Harr Hhas Hd).
    destruct (mapaxes_block _ _ _) as [r f'] eqn:Hblock.
    apply mapaxes_block_frame in Hblock
      as (Hdims & _ & _ & _ & _ & (evs & Htrace & Hevs) & _).
    cbn [fst snd world obj dmem imem trace] in *.
    split; [by rewrite Hdims|].
    unfold new_events. rewrite Htrace, <- !app_assoc, drop_app_length.
    rewrite !existsb_app. cbn [existsb consults].
    rewrite array_events_consult, Hevs by done.
    split; [reflexivity|]. cbn. by rewrite orb_true_r.
  - intros d Hno Hhas Hd.
    rewrite (createGrdecl_SPECGRID _ _ _ _ _ _ _ _ Harr Hno Hhas Hd).
    destruct (mapaxes_block _ _ _) as [r f'] eqn:Hblock.
    apply mapaxes_block_frame in Hblock
      as (Hdims & _ & _ & _ & _ & (evs & Htrace & Hevs) & _).
    cbn [fst snd world obj dmem imem trace] in *.
    split; [by rewrite Hdims|].
    unfold new_events. rewrite Htrace, <- !app_assoc, drop_app_length.
    rewrite !existsb_app. cbn. by rewrite !orb_true_r.
Qed.

(** A deck with [DIMENS] 1 1 1 and [SPECGRID] 2 1 1: the description
    gets 1 1 1. *)
Lemma createGrdecl_dims_precedence_witness :
  let out := createGrdecl Examples.ext Examples.deck_both
               (Build_Frame Examples.deck_world Examples.blank) in
  hasKeyword Examples.deck_both "SPECGRID" = true
  /\ first_record_ints Examples.deck_both "SPECGRID" = Some (2, 1, 1)
  /\ dims (obj out.2) = (1, 1, 1)
  /\ existsb (consults "SPECGRID")
       (new_events Examples.deck_world (world out.2)) = false.
Proof.
  cbv zeta. split; [reflexivity|]. split; [reflexivity|].
  destruct (@createGrdecl_dims_precedence ListDeck.api Examples.ext Examples.deck_both
              Examples.deck_world Examples.blank 5 6 (Ptr 2) eq_refl)
    as [Hdimens _].
  destruct (Hdimens (1, 1, 1) eq_refl eq_refl) as (Hd & Hs & _).
  split; [exact Hd | exact Hs].
Defined.

(** C5: [createGrdecl] throws the error of the dimension check only if
    the deck has neither [DIMENS] nor [SPECGRID]; on a deck whose arrays
    can be read it throws it whenever the deck has neither; and when it
    throws it, the description passed in is left as it was. *)
Theorem createGrdecl_SchemaError_iff `{DeckAPI} ext (deck : Deck) w g :
  let out := createGrdecl ext deck (Build_Frame w g) in
  (out.1 = Throw SchemaError ->
   hasKeyword deck "DIMENS" = false /\ hasKeyword deck "SPECGRID" = false
   /\ obj out.2 = g)
  /\ (is_Some (deck_arrays deck) ->
      hasKeyword deck "DIMENS" = false ->
      hasKeyword deck "SPECGRID" = false ->
      out.1 = Throw SchemaError /\ obj out.2 = g).
Proof.
  cbv zeta. split.
  - destruct (createGrdecl ext deck _) as [r f'] eqn:Hrun. cbn [fst snd].
    intros ->. by apply createGrdecl_SchemaError_inv in Hrun.
  - intros [[[z c] a] Harr] Hno Hno'.
    by rewrite (createGrdecl_neither _ _ _ _ _ _ _ Harr Hno Hno').
Qed.

(** A deck with the three arrays and no dimension keyword. *)
Lemma createGrdecl_SchemaError_iff_witness :
  let out := createGrdecl Examples.ext Examples.deck_no_dims
               (Build_Frame Examples.deck_world Examples.blank) in
  is_Some (deck_arrays Examples.deck_no_dims)
  /\ out.1 = Throw SchemaError /\ obj out.2 = Examples.blank.
Proof.
  cbv zeta.
  assert (Harr : is_Some (deck_arrays Examples.deck_no_dims))
    by (eexists; reflexivity).
  split; [exact Harr|].
  apply (@createGrdecl_SchemaError_iff ListDeck.api Examples.ext Examples.deck_no_dims
           Examples.deck_world Examples.blank); [exact Harr | reflexivity..].
Defined.

(** C7: in [createGrdecl], on a deck whose arrays and dimensions can be
    read: when [MAPAXES] is present and the items of its first record
    have SI values, the function returns, the description points to a
    buffer that was not live before the call, the buffer holds those SI
    values in order, and all memory that was live before is unchanged;
    when [MAPAXES] is absent the description's pointer is null and
    nothing is allocated. *)
Theorem createGrdecl_mapaxes_buffer `{DeckAPI} ext (deck : Deck) w g z c a d :
  deck_arrays deck = Some (z, c, a) ->
  stated_dims deck = Some d ->
  let out := createGrdecl ext deck (Build_Frame w g) in
  let evs := new_events w (world out.2) in
  (forall kw r vals,
      hasKeyword deck "MAPAXES" = true ->
      getKeyword deck "MAPAXES" = Some kw ->
      getRecord kw 0 = Some r ->
      record_si_doubles r = Some vals ->
      out.1 = Ok tt
      /\ exists buf,
          mapaxes (obj out.2) = Ptr buf
          /\ (buf ∉ dom (dmem w))
          /\ dmem (world out.2) = <[buf := vals]> (dmem w)
          /\ imem (world out.2) = imem w
          /\ Malloc (record_size r) buf ∈ evs)
  /\ (hasKeyword deck "MAPAXES" = false ->
      out.1 = Ok tt
      /\ mapaxes (obj out.2) = NULL
      /\ dmem (world out.2) = dmem w
      /\ imem (world out.2) = imem w
      /\ forall n buf, Malloc n buf ∉ evs).
Proof.
  intros Harr Hdims. cbv zeta.
  assert (exists evs0 : list Event,
             (forall n buf, Malloc n buf ∉ evs0)
             /\ createGrdecl ext deck (Build_Frame w g)
                = mapaxes_block ext deck
                    (Build_Frame
                       (Build_World (dmem w) (imem w) (trace w ++ evs0))
                       (before_mapaxes g z c a d)))
    as (evs0 & Hevs0 & ->).
  { unfold stated_dims in Hdims.
    assert (forall n buf, Malloc n buf ∉ array_events deck) as Harrays.
    { intros n buf. unfold array_events.
      destruct (hasKeyword deck "ACTNUM"); cbn [app];
        rewrite ?elem_of_cons, elem_of_nil; intuition discriminate. }
    destruct (hasKeyword deck "DIMENS") eqn:Hhas.
    - eexists. split;
        [|exact (createGrdecl_DIMENS _ _ _ _ _ _ _ _ Harr Hhas Hdims)].
      intros n buf. rewrite elem_of_app, !elem_of_cons, elem_of_nil.
      specialize (Harrays n buf). intuition discriminate.
    - destruct (hasKeyword deck "SPECGRID") eqn:Hhas'; [|discriminate].
      eexists. split;
        [|exact (createGrdecl_SPECGRID _ _ _ _ _ _ _ _ Harr Hhas Hhas' Hdims)].
      intros n buf. rewrite elem_of_app, !elem_of_cons, elem_of_nil.
      specialize (Harrays n buf). intuition discriminate. }
  split.
  - intros kw r vals Hhas Hkw Hr Hvals.
    rewrite (mapaxes_block_present _ _ _ _ _ _ _ Hhas Hkw Hr Hvals).
    cbn [fst snd world obj dmem imem trace mapaxes set_mapaxes].
    split; [reflexivity|]. eexists.
    split; [reflexivity|]. split; [apply is_fresh|].
    split; [reflexivity|]. split; [reflexivity|].
    unfold new_events. cbn [trace].
    rewrite <- app_assoc, drop_app_length, elem_of_app, !elem_of_cons.
    right. right. right. by left.
  - intros Hno. rewrite (mapaxes_block_absent _ _ _ _ Hno).
    unfold record_call.
    cbn [fst snd world obj dmem imem trace mapaxes set_mapaxes].
    do 4 (split; [reflexivity|]).
    intros n buf. unfold new_events. cbn [trace].
    rewrite <- app_assoc, drop_app_length, elem_of_app, !elem_of_cons,
      elem_of_nil.
    specialize (Hevs0 n buf). intuition discriminate.
Qed.

(** A deck with [MAPAXES] 0 1 0 0 1 0, in a memory whose live buffers
    are at 5 and 6: the description gets a buffer at a third address. *)
Lemma createGrdecl_mapaxes_buffer_witness :
  let out := createGrdecl Examples.ext Examples.deck_both
               (Build_Frame Examples.deck_world Examples.blank) in
  out.1 = Ok tt
  /\ exists buf,
      mapaxes (obj out.2) = Ptr buf
      /\ (buf ∉ dom (dmem Examples.deck_world))
      /\ dmem (world out.2)
         = <[buf := [0; 1; 0; 0; 1; 0]%float]> (dmem Examples.deck_world).
Proof.
  cbv zeta.
  destruct (@createGrdecl_mapaxes_buffer ListDeck.api Examples.ext Examples.deck_both
              Examples.deck_world Examples.blank 5 6 (Ptr 2) (1, 1, 1)
              eq_refl eq_refl) as [Hpresent _].
  destruct (Hpresent Examples.MAPAXES
              (map ListDeck.double_item [0; 1; 0; 0; 1; 0]%float)
              [0; 1; 0; 0; 1; 0]%float eq_refl eq_refl eq_refl eq_refl)
    as (Hok & buf & Hptr & Hfresh & Hmem & _).
  split; [exact Hok|]. exists buf. auto.
Defined.


(** * Further properties *)

(** ** The geological-source path *)

(** X1: [initFromEclipseGrid] leaves the memory as it found it, whether
    it returns or throws: the four vectors it exports the grid into are
    local, and all of them are gone at its end, also when the assembler
    fails; no vector that was live before the call is changed. *)
Theorem initFromEclipseGrid_restores_memory ext inputGrid poreVolumes w this :
  let out := initFromEclipseGrid ext inputGrid poreVolumes
               (Build_Frame w this) in
  dmem (world out.2) = dmem w /\ imem (world out.2) = imem w.
Proof. cbv zeta. by rewrite initFromEclipseGrid_run. Qed.

(** X2: when the assembler of corner-point grids returns a null handle,
    [initFromEclipseGrid] throws [std::runtime_error] with the message
    "Failed to construct grid.", leaves [ug_] null, never attaches a copy
    of the elevations, and the call of the assembler is the last call it
    made; the pore-volume filtering that was requested has run once
    before, so its work is lost with the exception. *)
Theorem initFromEclipseGrid_assembler_failure ext inputGrid poreVolumes
    w this g tol :
  let out := initFromEclipseGrid ext inputGrid poreVolumes
               (Build_Frame w this) in
  let evs := new_events w (world out.2) in
  CreateGridCornerpoint g tol NULL ∈ evs ->
  out.1 = Throw (runtime_error "Failed to construct grid.")
  /\ ug_ (obj out.2) = NULL
  /\ (forall ug zc, AttachZcornCopy ug zc ∉ evs)
  /\ last evs = Some (CreateGridCornerpoint g tol NULL)
  /\ (poreVolumes <> [] -> getMinpvMode inputGrid <> Inactive ->
      length (minpv_reports evs) = 1%nat).
Proof.
  cbv zeta. rewrite init_events, init_result, init_obj. cbn [ug_].
  intros [[_ E] | [E | (_ & _ & E)]]%in_pipeline_events; try discriminate E.
  unfold assembly_call in E. injection E as -> -> Hnull.
  unfold pipeline_result, pipeline_events, assembly_call.
  rewrite <- Hnull. cbn [is_null].
  split; [reflexivity|]. split; [reflexivity|]. split; [|split].
  - intros ug zc Hin. rewrite app_nil_r in Hin.
    apply elem_of_app in Hin as [Hin | Hin%list_elem_of_singleton];
      [|discriminate Hin].
    destruct (filtering_requested inputGrid poreVolumes);
      [apply list_elem_of_singleton in Hin; discriminate Hin
      | by apply elem_of_nil in Hin].
  - rewrite app_nil_r, last_snoc. reflexivity.
  - intros Hpv Hmode.
    rewrite (proj2 (filtering_requested_true inputGrid poreVolumes))
      by done.
    reflexivity.
Qed.

(** X3: the constructor taking only an [EclipseGrid] never filters: its
    one and only call is the assembler's, on the dimensions and the four
    arrays exactly as the grid exports them (a null pointer for an array
    exported empty), with the pinch threshold (or 0.0 when pinch is
    inactive) as tolerance, whatever the grid's minimum-pore-volume mode
    is; it throws exactly when the assembler returns null, and leaves the
    memory as it found it. *)
Theorem GridManager_EclipseGrid_never_filters ext inputGrid w :
  let out := GridManager_EclipseGrid ext inputGrid w in
  exists ug,
    new_events w out.2
    = [CreateGridCornerpoint
         (Build_grdecl_view
            (getNX inputGrid, getNY inputGrid, getNZ inputGrid)
            (behind (exportCOORD inputGrid) (exportCOORD inputGrid))
            (behind (exportZCORN inputGrid) (exportZCORN inputGrid))
            (behind (exportACTNUM inputGrid) (exportACTNUM inputGrid))
            (behind (exportMAPAXES inputGrid) (exportMAPAXES inputGrid)))
         (if isPinchActive inputGrid
          then getPinchThresholdThickness inputGrid else 0%float)
         ug]
    /\ out.1 = (if is_null ug
               then Throw (runtime_error "Failed to construct grid.")
               else Ok (Build_GridManager ug))
    /\ dmem out.2 = dmem w /\ imem out.2 = imem w.
Proof.
  cbv zeta. unfold GridManager_EclipseGrid, construct.
  rewrite initFromEclipseGrid_run.
  exists (assembled ext inputGrid []).
  unfold pipeline_result, pipeline_events, reported_cells.
  cbn [filtering_requested vector_empty negb andb app].
  destruct (is_null (assembled ext inputGrid [])); cbn [fst snd world];
    rewrite new_events_app; by repeat split.
Qed.

(** X4: [initFromEclipseGrid] calls the minimum-pore-volume processor
    at most once, and always on the grid's own dimensions, the caller's
    pore volumes, the grid's threshold, and the active-cell flags and
    elevations exactly as the grid exports them; the count it reports is
    the processor's. *)
Theorem minpv_called_at_most_once_as_exported ext inputGrid poreVolumes
    w this :
  let evs := new_events w
               (world (initFromEclipseGrid ext inputGrid poreVolumes
                         (Build_Frame w this)).2) in
  (length (minpv_reports evs) <= 1)%nat
  /\ (forall d pv minpv act opmfil zc n,
        MinpvProcess d pv minpv act opmfil zc n ∈ evs ->
        d = (getNX inputGrid, getNY inputGrid, getNZ inputGrid)
        /\ pv = poreVolumes
        /\ minpv = getMinpvValue inputGrid
        /\ act = exportACTNUM inputGrid
        /\ zc = exportZCORN inputGrid
        /\ n = (mp_process ext d pv minpv act opmfil zc).1.1).
Proof.
  cbv zeta. rewrite init_events. split.
  - unfold pipeline_events.
    destruct (filtering_requested inputGrid poreVolumes),
      (is_null (assembled ext inputGrid poreVolumes)),
      (0 <? reported_cells ext inputGrid poreVolumes); cbn; lia.
  - intros d pv minpv act opmfil zc n
      [[_ E] | [E | (_ & _ & E)]]%in_pipeline_events;
      try discriminate E.
    by injection E as -> -> -> -> -> -> ->.
Qed.

(** With an assembler that always fails, on the one-cell grid with pore
    volumes given: the filter has run, and the constructor's body throws. *)
Lemma initFromEclipseGrid_assembler_failure_witness :
  let out := initFromEclipseGrid Failures.ext Examples.grid
               Examples.poreVolumes
               (Build_Frame empty_world (Build_GridManager NULL)) in
  out.1 = Throw (runtime_error "Failed to construct grid.")
  /\ ug_ (obj out.2) = NULL
  /\ length (minpv_reports (new_events empty_world (world out.2))) = 1%nat.
Proof.
  cbv zeta.
  destruct (initFromEclipseGrid_assembler_failure Failures.ext Examples.grid
              Examples.poreVolumes empty_world (Build_GridManager NULL)
              (assembly_input Failures.ext Examples.grid
                 Examples.poreVolumes)
              (tolerance Examples.grid))
    as (Hthrow & Hug & _ & _ & Hfilter).
  { vm_compute. repeat constructor. }
  split; [exact Hthrow|]. split; [exact Hug|].
  apply Hfilter; discriminate.
Defined.


(** ** Lifetimes *)

(** No constructor calls [destroy_grid]. *)
Lemma constructors_release_nothing ext ug0 :
  let quiet (ctor : World -> Result GridManager * World) :=
    forall w, released (new_events w (ctor w).2) = [] in
  (forall inputGrid, quiet (GridManager_EclipseGrid ext inputGrid))
  /\ (forall inputGrid poreVolumes,
      quiet (GridManager_EclipseGrid_poreVolumes ext inputGrid poreVolumes))
  /\ (forall nx ny, quiet (GridManager_2d ext ug0 nx ny))
  /\ (forall nx ny dx dy, quiet (GridManager_2d_sized ext ug0 nx ny dx dy))
  /\ (forall nx ny nz, quiet (GridManager_3d ext ug0 nx ny nz))
  /\ (forall nx ny nz dx dy dz,
      quiet (GridManager_3d_sized ext ug0 nx ny nz dx dy dz))
  /\ (forall input_filename, quiet (GridManager_file ext ug0 input_filename)).
Proof.
  assert (Hinit : forall inputGrid poreVolumes init w,
             released
               (new_events w
                  (construct init
                     (initFromEclipseGrid ext inputGrid poreVolumes) w).2)
             = []).
  { intros inputGrid poreVolumes init w. unfold construct.
    rewrite initFromEclipseGrid_run.
    assert (released (pipeline_events ext inputGrid poreVolumes) = []) as Hq.
    { unfold pipeline_events.
      destruct (filtering_requested inputGrid poreVolumes),
        (is_null (assembled ext inputGrid poreVolumes)),
        (0 <? reported_cells ext inputGrid poreVolumes); reflexivity. }
    destruct (pipeline_result ext inputGrid poreVolumes);
      cbn [snd world]; by rewrite new_events_app. }
  assert (Hcall : forall init (call : M GridManager pointer) e ug message w,
             (forall f, call f
                        = (Ok ug, Build_Frame (record_call (e ug) (world f))
                                    (obj f))) ->
             released [e ug] = [] ->
             released
               (new_events w
                  (construct init
                     (let! ug := call in
                      modify_obj (fun _ => Build_GridManager ug) ;;
                      check_ug message) w).2)
             = []).
  { intros init call e ug message w Hcall He.
    unfold construct, bind. rewrite Hcall.
    unfold modify_obj, check_ug, bind, get_obj, OPM_THROW, throw, ret,
      record_call.
    cbn [world obj ug_ dmem imem trace].
    destruct (is_null ug); cbn [snd world]; by rewrite new_events_app. }
  cbv zeta. repeat apply conj; intros.
  - apply Hinit.
  - apply Hinit.
  - by apply (Hcall _ _ (CreateGridCart2d nx ny 1 1)
                (create_grid_cart2d ext nx ny 1 1)).
  - by apply (Hcall _ _ (CreateGridCart2d nx ny dx dy)
                (create_grid_cart2d ext nx ny dx dy)).
  - by apply (Hcall _ _ (CreateGridCart3d nx ny nz)
                (create_grid_cart3d ext nx ny nz)).
  - by apply (Hcall _ _ (CreateGridHexa3d nx ny nz dx dy dz)
                (create_grid_hexa3d ext nx ny nz dx dy dz)).
  - by apply (Hcall _ _ (ReadGrid input_filename)
                (read_grid ext input_filename)).
Qed.

Lemma runs_factory_releases_once (message : string) ctor :
  runs_factory message ctor ->
  (forall w, released (new_events w (ctor w).2) = []) ->
  releases_once ctor.
Proof.
  intros Hrun Hquiet w. specialize (Hquiet w).
  destruct (Hrun w) as (evs & ug & Hfac & Hctor).
  cbv zeta. unfold lifetime. rewrite Hctor in Hquiet |- *.
  cbn [snd] in Hquiet. rewrite new_events_app in Hquiet.
  destruct ug as [|a]; cbn [is_null].
  - cbn [fst snd]. rewrite new_events_app. by split.
  - unfold GridManager_destructor, call_destroy_grid, bind, get_obj, emit,
      record_call.
    cbn [fst snd world obj ug_ dmem imem trace].
    rewrite <- app_assoc, new_events_app.
    exists (Ptr a), evs. by repeat split.
Qed.

(** X5: over the life of a manager, every handle is released exactly
    once and nothing else is.  For each of the seven constructors: if it
    returns, the destructor's call of [destroy_grid] is the last call of
    the manager's life, it is the only release, it is given the one handle
    a factory returned, and that handle is not null; if the constructor
    throws, the one factory called had returned null and nothing is ever
    released. *)
Theorem lifetime_releases_once ext ug0 :
  (forall inputGrid, releases_once (GridManager_EclipseGrid ext inputGrid))
  /\ (forall inputGrid poreVolumes,
      releases_once
        (GridManager_EclipseGrid_poreVolumes ext inputGrid poreVolumes))
  /\ (forall nx ny, releases_once (GridManager_2d ext ug0 nx ny))
  /\ (forall nx ny dx dy,
      releases_once (GridManager_2d_sized ext ug0 nx ny dx dy))
  /\ (forall nx ny nz, releases_once (GridManager_3d ext ug0 nx ny nz))
  /\ (forall nx ny nz dx dy dz,
      releases_once (GridManager_3d_sized ext ug0 nx ny nz dx dy dz))
  /\ (forall input_filename,
      releases_once (GridManager_file ext ug0 input_filename)).
Proof.
  destruct (constructors_run ext ug0) as (H1 & H2 & H3 & H4 & H5 & H6 & H7).
  destruct (constructors_release_nothing ext ug0)
    as (Q1 & Q2 & Q3 & Q4 & Q5 & Q6 & Q7).
  repeat apply conj; intros;
    eapply runs_factory_releases_once; eauto.
Qed.

(** X6: the five constructors without an initialiser for [ug_] never
    read it before they assign it: their result and every call they make
    are the same whatever the member held at first. *)
Theorem uninitialised_member_never_observed ext (ug0 ug0' : pointer) w :
  (forall nx ny, GridManager_2d ext ug0 nx ny w = GridManager_2d ext ug0' nx ny w)
  /\ (forall nx ny dx dy,
      GridManager_2d_sized ext ug0 nx ny dx dy w
      = GridManager_2d_sized ext ug0' nx ny dx dy w)
  /\ (forall nx ny nz,
      GridManager_3d ext ug0 nx ny nz w = GridManager_3d ext ug0' nx ny nz w)
  /\ (forall nx ny nz dx dy dz,
      GridManager_3d_sized ext ug0 nx ny nz dx dy dz w
      = GridManager_3d_sized ext ug0' nx ny nz dx dy dz w)
  /\ (forall input_filename,
      GridManager_file ext ug0 input_filename w
      = GridManager_file ext ug0' input_filename w).
Proof.
  repeat apply conj; intros;
    unfold GridManager_2d, GridManager_2d_sized, GridManager_3d,
      GridManager_3d_sized, GridManager_file, construct, bind, modify_obj,
      check_ug, get_obj, call_create_grid_cart2d, call_create_grid_cart3d,
      call_create_grid_hexa3d, call_read_grid, emit;
    cbn [world obj ug_ fst snd]; reflexivity.
Qed.


(** ** The keyword path: every outcome *)

Section Outcomes.
Context `{DeckAPI}.
Variable ext : Externals.

(** When some item cannot be read, the copy loop throws the library's
    exception; the buffer stays allocated. *)
Lemma fill_loop_None (r : DeckRecord) (a : positive) (n : nat) :
  forall (i : nat) (f : Frame grdecl),
    mapM (item_si_double r) (seq i n) = None ->
    is_Some (dmem (world f) !! a) ->
    exists s f',
      for_loop n i (fill r a) f = (Throw (library_exception s), f')
      /\ is_Some (dmem (world f') !! a).
Proof.
  induction n as [|n IH]; intros i f Hnone Hlive; [discriminate|].
  cbn [seq mapM] in Hnone. cbn [for_loop]. unfold bind.
  destruct (item_si_double r i) as [v|] eqn:Hr.
  - rewrite (fill_Some _ _ _ _ _ Hr). unfold store_d.
    cbn in Hnone.
    destruct (mapM (item_si_double r) (seq (S i) n)) as [vals|] eqn:Hrest;
      [discriminate|].
    apply (IH (S i)); [exact Hrest|].
    cbn [world dmem set_dmem]. rewrite lookup_alter_eq.
    destruct Hlive as [l ->]. by eexists.
  - destruct (fill_None r a i f Hr) as [s ->]. by exists s, f.
Qed.

(** The [MAPAXES] block goes one of the five ways of [mapaxes_outcome]. *)
Lemma mapaxes_block_outcome deck (w : World) (o : grdecl) r f' :
  mapaxes_block ext deck (Build_Frame w o) = (r, f') ->
  mapaxes_outcome deck w o r f'.
Proof.
  destruct (hasKeyword deck "MAPAXES") eqn:Hhas.
  2:{ rewrite (mapaxes_block_absent _ _ _ _ Hhas). intros [= <- <-].
      by constructor. }
  destruct (getKeyword deck "MAPAXES") as [kw|] eqn:Hkw.
  2:{ unfold mapaxes_block. destruct w as [dm im tr]. repeat step.
      intros [= <- <-]. world_norm. rewrite <- app_assoc.
      by apply mapaxes_no_keyword. }
  destruct (getRecord kw 0) as [rec|] eqn:Hrec.
  2:{ unfold mapaxes_block. destruct w as [dm im tr]. repeat step.
      intros [= <- <-]. world_norm. rewrite <- app_assoc.
      by eapply mapaxes_no_record. }
  destruct (record_si_doubles rec) as [vals|] eqn:Hvals.
  { rewrite (mapaxes_block_present _ _ _ _ _ _ _ Hhas Hkw Hrec Hvals).
    intros [= <- <-]. by eapply mapaxes_copied. }
  unfold mapaxes_block. destruct w as [dm im tr]. repeat step. world_norm.
  match goal with
  | |- context [bind (for_loop ?n ?i ?b) ?k ?f] =>
      destruct (fill_loop_None rec (fresh (dom dm)) n i f Hvals)
        as (s & f'' & Hloop & Hlive);
      [world_norm; rewrite lookup_insert_eq; by eexists|];
      rewrite (bind_eq _ k _ _ _ Hloop);
      apply fill_loop_frame in Hloop as (Ho & Ht & Hi & Hd & _)
  end.
  intros [= <- <-].
  cbn [record_call set_dmem world obj dmem imem trace] in *.
  eapply mapaxes_item_unreadable; try done.
  - rewrite Ht, <- !app_assoc. reflexivity.
  - intros b Hb. rewrite (Hd b Hb). by rewrite lookup_insert_ne.
Qed.

(** The three ways [createGrdecl] can go: an accessor throws before any
    assignment, the dimension check throws, or the [MAPAXES] block is
    reached with the other four fields assigned. *)
Lemma createGrdecl_outcome deck w g r f' :
  createGrdecl ext deck (Build_Frame w g) = (r, f') ->
  (exists evs,
      f' = Build_Frame (Build_World (dmem w) (imem w) (trace w ++ evs)) g
      /\ allocated evs = []
      /\ ((exists s, r = Throw (library_exception s))
          \/ (r = Throw SchemaError
              /\ hasKeyword deck "DIMENS" = false
              /\ hasKeyword deck "SPECGRID" = false)))
  \/ (exists z c a d evs,
        deck_arrays deck = Some (z, c, a)
        /\ stated_dims deck = Some d
        /\ allocated evs = []
        /\ mapaxes_block ext deck
             (Build_Frame (Build_World (dmem w) (imem w) (trace w ++ evs))
                (before_mapaxes g z c a d))
           = (r, f')).
Proof.
  unfold createGrdecl.
  change (bind (deck_hasKeyword deck "MAPAXES") _)
    with (mapaxes_block ext deck).
  destruct w as [dm im tr].
  repeat (step;
          try (intros [= <- <-]; left; eexists; world_norm;
               rewrite <- ?app_assoc;
               split; [reflexivity|]; split; [reflexivity|];
               first [ left; by eexists | right; by repeat split ])).
  all: world_norm; rewrite <- ?app_assoc; intros Hblock; right;
    do 5 eexists;
    (split; [|split; [|split; [|exact Hblock]]]);
    [ unfold deck_arrays | unfold stated_dims, first_record_ints
    | reflexivity ];
    repeat (match goal with
            | E : ?x = _ |- context [?x] => rewrite E
            end; cbn [mbind option_bind]);
    reflexivity.
Qed.
End Outcomes.


(** ** The keyword path: returns, failures and memory *)

Lemma new_events_app_assoc (w : World) (d : gmap positive (list double))
    (i : gmap positive (list Z)) (evs evs' : list Event) :
  new_events w (Build_World d i ((trace w ++ evs) ++ evs')) = evs ++ evs'.
Proof. rewrite <- app_assoc. apply new_events_app. Qed.

Lemma new_events_trace (w w' : World) (evs : list Event) :
  trace w' = trace w ++ evs -> new_events w w' = evs.
Proof. unfold new_events. intros ->. apply drop_app_length. Qed.

Lemma fresh_not_live (m : gmap positive (list double)) (b : positive) :
  b ∈ dom m -> b <> fresh (dom m).
Proof. intros Hb ->. by apply (is_fresh (dom m)). Qed.

Lemma createGrdecl_reaches_block `{DeckAPI} ext (deck : Deck) w g z c a d :
  deck_arrays deck = Some (z, c, a) ->
  stated_dims deck = Some d ->
  exists evs,
    allocated evs = []
    /\ createGrdecl ext deck (Build_Frame w g)
       = mapaxes_block ext deck
           (Build_Frame (Build_World (dmem w) (imem w) (trace w ++ evs))
              (before_mapaxes g z c a d)).
Proof.
  intros Harr Hdims. unfold stated_dims in Hdims.
  destruct (hasKeyword deck "DIMENS") eqn:Hd.
  - eexists. split; [|by apply createGrdecl_DIMENS].
    unfold array_events. by destruct (hasKeyword deck "ACTNUM").
  - destruct (hasKeyword deck "SPECGRID") eqn:Hs; [|discriminate].
    eexists. split; [|by apply createGrdecl_SPECGRID].
    unfold array_events. by destruct (hasKeyword deck "ACTNUM").
Qed.

(** X7: when [createGrdecl] returns, it has overwritten every field of
    the description it was given, whatever they held: the deck's arrays
    could be read and its dimensions are stated, the description holds
    those dimensions, points to the deck's own [COORD] and [ZCORN]
    vectors and to its [ACTNUM] vector (null when the deck has none), and
    its transform is null when the deck has no [MAPAXES], and otherwise a
    buffer that was not live before the call and is the only allocation
    of the call. *)
Theorem createGrdecl_return_inversion `{DeckAPI} ext (deck : Deck) w g f' :
  createGrdecl ext deck (Build_Frame w g) = (Ok tt, f') ->
  exists z c a d mp,
    deck_arrays deck = Some (z, c, a)
    /\ stated_dims deck = Some d
    /\ obj f' = Build_grdecl d (Ptr c) (Ptr z) a mp
    /\ (if hasKeyword deck "MAPAXES"
        then exists buf, mp = Ptr buf /\ (buf ∉ dom (dmem w))
                         /\ allocated (new_events w (world f')) = [buf]
        else mp = NULL /\ allocated (new_events w (world f')) = []).
Proof.
  intros [(evs & _ & _ & [[s Hs] | [Hs _]]) |
          (z & c & a & d & evs & Harr & Hdims & Halloc & Hblock)
         ]%createGrdecl_outcome; try discriminate Hs.
  apply mapaxes_block_outcome in Hblock.
  inversion Hblock as [Hhas | | | kw r vals Hhas Hkw Hr Hvals |]; subst;
    exists z, c, a, d; eexists; (do 2 (split; [done|]));
    (split; [reflexivity|]); rewrite Hhas;
    unfold record_call; cbn [world dmem imem trace].
  - rewrite new_events_app_assoc. unfold allocated in *.
    rewrite omap_app, Halloc. by split.
  - eexists. split; [reflexivity|]. split; [apply is_fresh|].
    rewrite new_events_app_assoc. unfold allocated in *.
    by rewrite omap_app, Halloc.
Qed.

(** On a description with every field set beforehand. *)
Lemma createGrdecl_return_inversion_witness :
  let out := createGrdecl Examples.ext Examples.deck_both
               (Build_Frame Examples.deck_world Failures.stale) in
  out.1 = Ok tt
  /\ exists buf,
      obj out.2 = Build_grdecl (1, 1, 1) (Ptr 6) (Ptr 5) (Ptr 2) (Ptr buf)
      /\ (buf ∉ dom (dmem Examples.deck_world)).
Proof.
  cbv zeta.
  destruct (@createGrdecl_return_inversion ListDeck.api Examples.ext
              Examples.deck_both Examples.deck_world Failures.stale
              (@createGrdecl Examples.ext ListDeck.api Examples.deck_both
                 (Build_Frame Examples.deck_world Failures.stale)).2)
    as (z & c & a & d & mp & Harr & Hdims & -> & buf & -> & Hfresh & _).
  { vm_compute. reflexivity. }
  split; [vm_compute; reflexivity|]. exists buf. split; [|exact Hfresh].
  vm_compute in Harr, Hdims.
  by injection Harr as <- <- <-; injection Hdims as <-.
Defined.

(** X8: whether it returns or throws, [createGrdecl] changes no live
    memory: the integer vectors are as before, every vector of doubles
    that was live before the call holds what it held, at most one buffer
    is allocated, and without an allocation the memory is as before. *)
Theorem createGrdecl_preserves_live_memory `{DeckAPI} ext (deck : Deck) w g :
  let out := createGrdecl ext deck (Build_Frame w g) in
  let evs := new_events w (world out.2) in
  imem (world out.2) = imem w
  /\ (forall b, b ∈ dom (dmem w) -> dmem (world out.2) !! b = dmem w !! b)
  /\ (length (allocated evs) <= 1)%nat
  /\ (allocated evs = [] -> dmem (world out.2) = dmem w).
Proof.
  cbv zeta. destruct (createGrdecl ext deck _) as [r f'] eqn:Hrun.
  cbn [snd].
  apply createGrdecl_outcome in Hrun
    as [(evs & -> & Halloc & _) |
        (z & c & a & d & evs & _ & _ & Halloc & Hblock)].
  { cbn [world dmem imem]. rewrite new_events_app, Halloc. repeat split; cbn; auto with lia. }
  apply mapaxes_block_outcome in Hblock.
  inversion Hblock
    as [Hhas | | | kw r' vals Hhas Hkw Hr Hvals
        | kw r' s f'' Hhas Hkw Hr Hvals Ho Hi Ht Hd Hlive]; subst;
    unfold record_call in *; cbn [world dmem imem trace] in *.
  - rewrite new_events_app_assoc. unfold allocated in *.
    rewrite omap_app, Halloc. repeat split; cbn; auto with lia.
  - rewrite new_events_app_assoc. unfold allocated in *.
    rewrite omap_app, Halloc. repeat split; cbn; auto with lia.
  - rewrite new_events_app_assoc. unfold allocated in *.
    rewrite omap_app, Halloc. repeat split; cbn; auto with lia.
  - rewrite new_events_app_assoc. unfold allocated in *.
    rewrite omap_app, Halloc. cbn.
    split; [done|]. split; [|split; [lia | discriminate]].
    intros b Hb. apply lookup_insert_ne. by apply not_eq_sym, fresh_not_live.
  - rewrite <- app_assoc in Ht. rewrite (new_events_trace _ _ _ Ht).
    unfold allocated in *. rewrite omap_app, Halloc. cbn.
    split; [done|]. split; [|split; [lia | discriminate]].
    intros b Hb. apply Hd. by apply fresh_not_live.
Qed.

(** X9: the leak the source warns about.  When the deck's arrays and
    dimensions can be read and [MAPAXES] has a first record of which some
    item has no SI value, [createGrdecl] throws the library's exception
    after it has allocated the buffer: the buffer, which was not live
    before, is live after the call, and the description does not point to
    it (its transform is as before the call, its other four fields are
    already assigned), so the caller has no pointer to free. *)
Theorem createGrdecl_unreadable_item_leaks `{DeckAPI} ext (deck : Deck) w g
    z c a d kw r :
  deck_arrays deck = Some (z, c, a) ->
  stated_dims deck = Some d ->
  hasKeyword deck "MAPAXES" = true ->
  getKeyword deck "MAPAXES" = Some kw ->
  getRecord kw 0 = Some r ->
  record_si_doubles r = None ->
  let out := createGrdecl ext deck (Build_Frame w g) in
  exists s buf,
    out.1 = Throw (library_exception s)
    /\ allocated (new_events w (world out.2)) = [buf]
    /\ (buf ∉ dom (dmem w))
    /\ buf ∈ dom (dmem (world out.2))
    /\ obj out.2 = Build_grdecl d (Ptr c) (Ptr z) a (mapaxes g).
Proof.
  intros Harr Hdims Hhas Hkw Hr Hvals. cbv zeta.
  destruct (createGrdecl_reaches_block ext deck w g z c a d Harr Hdims)
    as (evs & Halloc & ->).
  destruct (mapaxes_block ext deck _) as [res f'] eqn:Hblock. cbn [fst snd].
  apply mapaxes_block_outcome in Hblock.
  inversion Hblock
    as [Hhas' | Hhas' Hkw' | kw' Hhas' Hkw' Hr'
        | kw' r' vals Hhas' Hkw' Hr' Hvals'
        | kw' r' s f'' Hhas' Hkw' Hr' Hvals' Ho Hi Ht Hd Hlive]; subst;
    try congruence.
  exists s, (fresh (dom (dmem w))).
  cbn [world dmem imem trace] in *.
  rewrite <- app_assoc in Ht. rewrite (new_events_trace _ _ _ Ht).
  split; [done|]. split.
  { unfold allocated in *. by rewrite omap_app, Halloc. }
  split; [apply is_fresh|].
  split; [by apply elem_of_dom|]. by rewrite Ho.
Qed.

(** [MAPAXES] whose third item has no value. *)
Lemma createGrdecl_unreadable_item_leaks_witness :
  let out := createGrdecl Examples.ext Failures.deck_hole
               (Build_Frame Examples.deck_world Failures.stale) in
  exists s buf,
    out.1 = Throw (library_exception s)
    /\ allocated (new_events Examples.deck_world (world out.2)) = [buf]
    /\ (buf ∉ dom (dmem Examples.deck_world))
    /\ buf ∈ dom (dmem (world out.2))
    /\ obj out.2 = Build_grdecl (1, 1, 1) (Ptr 6) (Ptr 5) (Ptr 2) (Ptr 14).
Proof.
  exact (@createGrdecl_unreadable_item_leaks ListDeck.api Examples.ext
           Failures.deck_hole Examples.deck_world Failures.stale
           5 6 (Ptr 2) (1, 1, 1) Failures.MAPAXES_hole
           [ListDeck.double_item 0; ListDeck.double_item 1;
            ListDeck.Build_item [] []; ListDeck.double_item 0]%float
           eq_refl eq_refl eq_refl eq_refl eq_refl eq_refl).
Defined.

(** X10: the shape of every failure of [createGrdecl].  It throws only
    the dimension-check error or an exception of the parser library; in
    every case the transform of the description is as before the call;
    and the description is either untouched altogether (always so for
    the dimension-check error) or half filled: the arrays were readable,
    the dimensions stated, [MAPAXES] is present, and the other four
    fields are already assigned. *)
Theorem createGrdecl_failure_shape `{DeckAPI} ext (deck : Deck) w g e f' :
  createGrdecl ext deck (Build_Frame w g) = (Throw e, f') ->
  (e = SchemaError \/ exists s, e = library_exception s)
  /\ (e = SchemaError -> obj f' = g)
  /\ mapaxes (obj f') = mapaxes g
  /\ (obj f' = g
      \/ exists z c a d,
          deck_arrays deck = Some (z, c, a)
          /\ stated_dims deck = Some d
          /\ hasKeyword deck "MAPAXES" = true
          /\ obj f' = Build_grdecl d (Ptr c) (Ptr z) a (mapaxes g)).
Proof.
  intros [(evs & -> & _ & [[s [= ->]] | ([= ->] & _)]) |
          (z & c & a & d & evs & Harr & Hdims & Halloc & Hblock)
         ]%createGrdecl_outcome.
  - split; [right; by eexists|]. by repeat split; auto.
  - split; [by left|]. by repeat split; auto.
  - apply mapaxes_block_outcome in Hblock.
    inversion Hblock
      as [| Hhas Hkw | kw Hhas Hkw Hr |
          | kw r s f'' Hhas Hkw Hr Hvals Ho Hi Ht Hd Hlive]; subst;
      (split; [right; by eexists|]); (split; [discriminate|]);
      cbn [obj]; rewrite ?Ho; (split; [reflexivity|]);
      right; exists z, c, a, d; by repeat split.
Qed.

(** [MAPAXES] without a record: the half-filled description. *)
Lemma createGrdecl_failure_shape_witness :
  let out := createGrdecl Examples.ext Failures.deck_no_record
               (Build_Frame Examples.deck_world Failures.stale) in
  out.1 = Throw (library_exception "DeckKeyword::getRecord")
  /\ obj out.2 = Build_grdecl (1, 1, 1) (Ptr 6) (Ptr 5) (Ptr 2) (Ptr 14).
Proof.
  cbv zeta.
  destruct (@createGrdecl_failure_shape ListDeck.api Examples.ext
              Failures.deck_no_record Examples.deck_world Failures.stale
              (library_exception "DeckKeyword::getRecord")
              (@createGrdecl Examples.ext ListDeck.api
                 Failures.deck_no_record
                 (Build_Frame Examples.deck_world Failures.stale)).2)
    as (_ & _ & _ & Hshape).
  { vm_compute. reflexivity. }
  split; [vm_compute; reflexivity|].
  destruct Hshape as [Hsame | (z & c & a & d & Harr & Hdims & _ & ->)].
  - vm_compute in Hsame. discriminate Hsame.
  - vm_compute in Harr, Hdims. by injection Harr as <- <- <-; injection Hdims as <-.
Defined.
